(** * Speech-to-Text-V2: the Vosk desktop application and its build script

    A shallow embedding of [vosk_speech_to_text.py] (the Tk application:
    event handlers, the background recognition thread and the deferred
    callbacks it posts) and of [build_exe.py] (the PyInstaller driver),
    followed by the properties of the specification that concern them.

    External collaborators (the file system, Vosk, PyAudio, Tk dialogs, the
    packaging subprocess) are opaque: every call to one of them is recorded
    as an [Event] with its arguments, and its answer is an argument of the
    function that makes the call. *)

From Stdlib Require Import List Bool Arith ZArith NArith Lia String Ascii.
Import ListNotations.

(* ================================================================== *)
(** ** Python strings *)
(* ================================================================== *)

Module PyStr.

(** A Python [str] is a sequence of Unicode code points. *)
Definition str : Type := list N.

(** A literal of the source text. *)
Definition lit (s : string) : str := map N_of_ascii (list_ascii_of_string s).
Arguments lit : simpl never.

Definition str_eq_dec : forall a b : str, {a = b} + {a <> b} :=
  list_eq_dec N.eq_dec.

Definition eqb (a b : str) : bool := if str_eq_dec a b then true else false.

(** Truth value of a string in a condition: non-empty. *)
Definition truthy (s : str) : bool :=
  match s with [] => false | _ :: _ => true end.

(** Truth value of an optional string ([None] and [''] are both false). *)
Definition truthy_opt (o : option str) : bool :=
  match o with Some s => truthy s | None => false end.

(** [str.isspace] on one code point: the code points [str.strip()] removes. *)
Definition is_space (c : N) : bool :=
  ((9 <=? c) && (c <=? 13) || (28 <=? c) && (c <=? 32)
   || (c =? 133) || (c =? 160) || (c =? 5760)
   || (8192 <=? c) && (c <=? 8202)
   || (c =? 8232) || (c =? 8233) || (c =? 8239) || (c =? 8287)
   || (c =? 12288))%N.

Fixpoint lstrip (s : str) : str :=
  match s with
  | [] => []
  | c :: r => if is_space c then lstrip r else s
  end.

Definition rstrip (s : str) : str := rev (lstrip (rev s)).

(** [s.strip()] *)
Definition strip (s : str) : str := rstrip (lstrip s).

(** [sep.join(l)] *)
Fixpoint join (sep : str) (l : list str) : str :=
  match l with
  | [] => []
  | [x] => x
  | x :: r => x ++ sep ++ join sep r
  end.

(** [s[:n]] for a non-negative [n] *)
Definition take (n : nat) (s : str) : str := firstn n s.

Definition space : str := lit " ".
Definition newline : str := [10%N].

End PyStr.
Import PyStr.

(* ================================================================== *)
(** ** build_exe.py *)
(* ================================================================== *)

Module BuildExe.

(** The parts of [os], [os.path] and [sys] the script consults. *)
Record OS : Type := mkOS {
  path_exists : str -> bool;
  pathsep : str;
  basename : str -> str;
  splitext : str -> str * str;
  path_join : list str -> str;
  getcwd : str;
  platform : str
}.

(** What the script does to the outside world. *)
Inductive Event : Type :=
| ELogInfo (msg : str)
| ELogError (msg : str)
| ECheckCall (argv : list str).

(** How [subprocess.check_call] ends. *)
Inductive CallOutcome : Type :=
| CallOk
| CalledProcessError (e : str)
| OtherError (e : str).

(** How a Python function ends: with a value, or with an exception that it
    does not catch. *)
Inductive Completion (A : Type) : Type :=
| Returned (a : A)
| Raised (e : str).
Arguments Returned {A} a.
Arguments Raised {A} e.

Section Build.

Variable os : OS.

(** The options of [build_executable]. *)
Record BuildOptions : Type := mkBuildOptions {
  script_path : str;
  output_name : option str;
  one_file : bool;
  console : bool;
  icon : option str;
  include_model : bool;
  model_path : option str
}.

(** The defaults of the signature. *)
Definition default_options (script : str) : BuildOptions :=
  mkBuildOptions script None true false None true None.

(** [if not output_name: output_name = splitext(basename(script_path))[0]] *)
Definition effective_name (b : BuildOptions) : str :=
  if truthy_opt (output_name b)
  then match output_name b with Some n => n | None => [] end
  else fst (splitext os (basename os (script_path b))).

Definition append (args : list str) (a : str) : list str := args ++ [a].

(** The list [pyinstaller_args] as the function builds it, one [append]
    after the other.  ([model_parent], which the source computes in the last
    branch, is never used.) *)
Definition pyinstaller_args (b : BuildOptions) : list str :=
  let args := [lit "pyinstaller";
               lit "--name=" ++ effective_name b;
               lit "--clean"] in
  let args := if one_file b then append args (lit "--onefile") else args in
  let args := if negb (console b) then append args (lit "--windowed") else args in
  let args :=
    match icon b with
    | Some i =>
        if truthy i && path_exists os i
        then append args (lit "--icon=" ++ i) else args
    | None => args
    end in
  let args :=
    match model_path b with
    | Some m =>
        if include_model b && truthy m && path_exists os m
        then append args
               (lit "--add-data=" ++ m ++ pathsep os ++ lit "model/"
                  ++ basename os m)
        else args
    | None => args
    end in
  append args (script_path b).

Definition dist_path (b : BuildOptions) : str :=
  let p := path_join os [getcwd os; lit "dist"; effective_name b] in
  if one_file b
  then p ++ (if eqb (platform os) (lit "win32") then lit ".exe" else [])
  else p.

(** [build_executable]: the events it produces and how it ends. *)
Definition build_executable (b : BuildOptions) (call : CallOutcome)
  : list Event * Completion (option str) :=
  let argv := pyinstaller_args b in
  let pre :=
    [ELogInfo (lit "Building executable with PyInstaller");
     ELogInfo (lit "Running PyInstaller with args: " ++ join space argv);
     ECheckCall argv] in
  match call with
  | CallOk =>
      (pre ++ [ELogInfo (lit "Executable built successfully: " ++ dist_path b)],
       Returned (Some (dist_path b)))
  | CalledProcessError e =>
      (pre ++ [ELogError (lit "Error building executable: " ++ e)],
       Returned None)
  | OtherError e => (pre, Raised e)
  end.

(** The argument vectors handed to the subprocess in a list of events. *)
Fixpoint subprocess_calls (evs : list Event) : list (list str) :=
  match evs with
  | [] => []
  | ECheckCall argv :: r => argv :: subprocess_calls r
  | _ :: r => subprocess_calls r
  end.

End Build.

(** A POSIX instance of [OS] over a given set of existing paths, used to
    evaluate the script on concrete inputs. *)
Module Posix.

Definition slash : N := 47%N.
Definition dot : N := 46%N.

(** [p[p.rfind('/')+1:]] *)
Fixpoint basename (p : str) : str :=
  match p with
  | [] => []
  | c :: r => if existsb (N.eqb slash) r then basename r
              else if N.eqb c slash then r else p
  end.

(** Splits a file name without directory part at its last dot, leading dots
    of the name not counting. *)
Definition splitext_name (name : str) : str * str :=
  let ext_rev :=
    (fix upto (l : str) : str :=
       match l with
       | [] => []
       | c :: r => if N.eqb c dot then [c] else c :: upto r
       end) (rev name) in
  if negb (existsb (N.eqb dot) name) then (name, [])
  else
    let root := firstn (List.length name - List.length ext_rev) name in
    if forallb (N.eqb dot) root then (name, [])
    else (root, rev ext_rev).

Definition splitext (p : str) : str * str :=
  let name := basename p in
  let dir := firstn (List.length p - List.length name) p in
  let '(root, ext) := splitext_name name in
  (dir ++ root, ext).

Definition ends_with_slash (p : str) : bool :=
  match rev p with c :: _ => N.eqb c slash | [] => false end.

Definition join2 (path b : str) : str :=
  match b with
  | c :: _ =>
      if N.eqb c slash then b
      else if negb (truthy path) || ends_with_slash path then path ++ b
      else path ++ [slash] ++ b
  | [] =>
      if negb (truthy path) || ends_with_slash path then path
      else path ++ [slash]
  end.

Definition path_join (l : list str) : str :=
  match l with
  | [] => []
  | a :: r => fold_left join2 r a
  end.

Definition os (existing : list str) : OS :=
  mkOS (fun p => existsb (eqb p) existing) (lit ":")
       basename splitext path_join (lit "/home/user/app") (lit "linux").

End Posix.

(** Two builds of the application script: with the defaults of the
    signature, and as [--onedir --console] makes [main] call it. *)
Definition sample_script : str := lit "vosk_speech_to_text.py".

Definition onefile_windowed : BuildOptions := default_options sample_script.

Definition onedir_console : BuildOptions :=
  mkBuildOptions sample_script None false true None false None.

(* ------------------------------------------------------------------ *)
(** *** The rest of the script: dependencies, model download, [main] *)
(* ------------------------------------------------------------------ *)

(** What the script does outside [build_executable]. [AInfo] and [AError]
    are records handed to the logger, whose two handlers write each of them
    to standard output and append it to [build_exe.log]. *)
Inductive Action : Type :=
| AInfo (msg : str)
| AError (msg : str)
| AImport (module_name : str)
| ARun (argv : list str)
| AModelLoad (path : str)
| AMakedirs (path : str)
| AHttpGet (url : str)
| AOpenWrite (path : str)
| AExtractAll (zip_path dest : str)
| ABuild (e : Event).

(** How the download of the archive ends: completely; with an exception
    before the archive file is created ([requests.get], [raise_for_status],
    the content length, [open]); or with an exception after it has been
    created. *)
Inductive DownloadOutcome : Type :=
| DownloadOk
| RequestRaises (e : str)
| TransferRaises (e : str).

(** How [extractall] ends, with the paths it has created. *)
Inductive ExtractOutcome : Type :=
| Extracted (created : list str)
| ExtractRaises (created : list str) (e : str).

(** How an [import] statement ends: the module is there; [ImportError] (or
    its subclass [ModuleNotFoundError]) is raised, with its message; or the
    code of the module raises something else. Exceptions are those derived
    from [Exception], here and in the other answers of the world. *)
Inductive ImportOutcome : Type :=
| Imported
| ImportFails (e : str)
| ImportRaises (e : str).

(** The answers of the world outside the script. *)
Record World : Type := mkWorld {
  executable : str;                       (* [sys.executable] *)
  import_of : str -> ImportOutcome;       (* [import name] *)
  run_call : list str -> CallOutcome;     (* [subprocess.check_call] *)
  model_loads : str -> option str;        (* [Model(path)]: the exception *)
  makedirs : str -> option str;           (* [os.makedirs]: the exception *)
  fetch : str -> DownloadOutcome;
  unzip : str -> str -> ExtractOutcome
}.

(** [import name] succeeds. *)
Definition importable (w : World) (name : str) : bool :=
  match import_of w name with
  | Imported => true
  | ImportFails _ | ImportRaises _ => false
  end.

(** The paths that exist, as [os.path.exists] answers for them. The script
    adds to them by its own calls of [os.makedirs], [open] and [extractall],
    and the model follows these calls only: the content of files is not
    followed (that of [build_exe.log], which exists from the moment the
    script is loaded, grows with every record logged), nor is what the
    subprocesses (pip, pipwin, PyInstaller) write. *)
Definition FS : Type := list str.

Definition exists_in (fs : FS) (p : str) : bool := existsb (eqb p) fs.

(** [os] with [os.path.exists] answering from [fs]. *)
Definition os_at (os : OS) (fs : FS) : OS :=
  mkOS (exists_in fs) (pathsep os) (basename os) (splitext os)
    (path_join os) (getcwd os) (platform os).

(** A function of the script: it looks at the paths that exist and adds to
    them, acts, and returns or raises. *)
Definition Script (A : Type) : Type := FS -> list Action * FS * Completion A.

Definition sret {A : Type} (a : A) : Script A :=
  fun fs => ([], fs, Returned a).

Definition sbind {A B : Type} (m : Script A) (k : A -> Script B) : Script B :=
  fun fs =>
    match m fs with
    | (a1, fs1, Returned a) =>
        match k a fs1 with
        | (a2, fs2, r) => (a1 ++ a2, fs2, r)
        end
    | (a1, fs1, Raised e) => (a1, fs1, Raised e)
    end.

Declare Scope script_scope.
Delimit Scope script_scope with script.
Notation "x <- c ;; k" := (sbind c (fun x => k))
  (at level 61, c at next level, right associativity) : script_scope.
Notation "c ;; k" := (sbind c (fun _ => k))
  (at level 61, right associativity) : script_scope.
Local Open Scope script_scope.

Definition act (a : Action) : Script unit := fun fs => ([a], fs, Returned tt).
Definition raise {A : Type} (e : str) : Script A :=
  fun fs => ([], fs, Raised e).
Definition path_exists_now (p : str) : Script bool :=
  fun fs => ([], fs, Returned (exists_in fs p)).
Definition create (paths : list str) : Script unit :=
  fun fs => ([], fs ++ paths, Returned tt).
Definition pass : Script unit := sret tt.

Definition actions {A : Type} (m : Script A) (fs : FS) : list Action :=
  fst (fst (m fs)).
Definition fs_after {A : Type} (m : Script A) (fs : FS) : FS :=
  snd (fst (m fs)).
Definition outcome {A : Type} (m : Script A) (fs : FS) : Completion A :=
  snd (m fs).

Section Script.

Variable os : OS.
Variable w : World.

(** [subprocess.check_call(argv)] where the script does not catch its
    exception. *)
Definition check_call (argv : list str) : Script unit :=
  act (ARun argv) ;;
  match run_call w argv with
  | CallOk => pass
  | CalledProcessError e => raise e
  | OtherError e => raise e
  end.

Definition pip_install (package : str) : list str :=
  [executable w; lit "-m"; lit "pip"; lit "install"; package].

Definition pipwin_install (package : str) : list str :=
  [executable w; lit "-m"; lit "pipwin"; lit "install"; package].

(** The three [try] statements of [check_dependencies]. Each catches
    [ImportError] only: anything else the import raises leaves the
    function. *)
Definition ensure_pyinstaller : Script unit :=
  act (AImport (lit "pyinstaller")) ;;
  match import_of w (lit "pyinstaller") with
  | Imported => act (AInfo (lit "PyInstaller is installed"))
  | ImportFails _ =>
      act (AError (lit "PyInstaller is not installed. Installing...")) ;;
      check_call (pip_install (lit "pyinstaller"))
  | ImportRaises e => raise e
  end.

Definition ensure_vosk : Script unit :=
  act (AImport (lit "vosk")) ;;
  match import_of w (lit "vosk") with
  | Imported => act (AInfo (lit "Vosk is installed"))
  | ImportFails _ =>
      act (AError (lit "Vosk is not installed. Installing...")) ;;
      check_call (pip_install (lit "vosk"))
  | ImportRaises e => raise e
  end.

Definition ensure_pyaudio : Script unit :=
  act (AImport (lit "pyaudio")) ;;
  match import_of w (lit "pyaudio") with
  | Imported => act (AInfo (lit "PyAudio is installed"))
  | ImportFails _ =>
      act (AError (lit "PyAudio is not installed. Installing...")) ;;
      if eqb (platform os) (lit "win32") then
        act (AInfo
               (lit "Windows platform detected, installing PyAudio via pipwin")) ;;
        act (AImport (lit "pipwin")) ;;
        match import_of w (lit "pipwin") with
        | Imported => pass
        | ImportFails _ => check_call (pip_install (lit "pipwin"))
        | ImportRaises e => raise e
        end ;;
        check_call (pipwin_install (lit "pyaudio"))
      else
        check_call (pip_install (lit "pyaudio"))
  | ImportRaises e => raise e
  end.

(** [check_dependencies] *)
Definition check_dependencies : Script unit :=
  ensure_pyinstaller ;;
  ensure_vosk ;;
  ensure_pyaudio.

(** [check_vosk_model] *)
Definition check_vosk_model (model_path : str) : Script bool :=
  present <- path_exists_now model_path ;;
  if negb present then
    act (AError (lit "Vosk model not found at " ++ model_path)) ;;
    sret false
  else
    act (AImport (lit "vosk")) ;;
    match import_of w (lit "vosk") with
    | ImportFails e | ImportRaises e =>
        act (AError (lit "Error loading Vosk model: " ++ e)) ;;
        sret false
    | Imported =>
        act (AModelLoad model_path) ;;
        match model_loads w model_path with
        | None =>
            act (AInfo (lit "Vosk model successfully loaded from "
                          ++ model_path)) ;;
            sret true
        | Some e =>
            act (AError (lit "Error loading Vosk model: " ++ e)) ;;
            sret false
        end
    end.

Definition default_model_name : str := lit "vosk-model-small-en-us-0.15".

(** An [import] outside any [try]. *)
Definition import_or_raise (name : str) : Script unit :=
  act (AImport name) ;;
  match import_of w name with
  | Imported => pass
  | ImportFails e | ImportRaises e => raise e
  end.

Definition model_dir_path : str := path_join os [getcwd os; lit "model"].

Definition zip_path_of (model_name : str) : str :=
  path_join os [getcwd os; model_name ++ lit ".zip"].

Definition url_of (model_name : str) : str :=
  lit "https://alphacephei.com/vosk/models/" ++ model_name ++ lit ".zip".

Definition extracted_path_of (model_name : str) : str :=
  path_join os [model_dir_path; model_name].

(** [download_vosk_model] *)
Definition download_vosk_model (model_name : str) : Script (option str) :=
  import_or_raise (lit "requests") ;;
  import_or_raise (lit "zipfile") ;;
  import_or_raise (lit "tqdm") ;;
  have_dir <- path_exists_now model_dir_path ;;
  (if negb have_dir then
     act (AMakedirs model_dir_path) ;;
     match makedirs w model_dir_path with
     | None => create [model_dir_path]
     | Some e => raise e
     end
   else pass) ;;
  have_zip <- path_exists_now (zip_path_of model_name) ;;
  downloaded <-
    (if negb have_zip then
       act (AInfo (lit "Downloading Vosk model from " ++ url_of model_name)) ;;
       act (AHttpGet (url_of model_name)) ;;
       match fetch w (url_of model_name) with
       | RequestRaises e =>
           act (AError (lit "Error downloading model: " ++ e)) ;;
           sret false
       | TransferRaises e =>
           act (AOpenWrite (zip_path_of model_name)) ;;
           create [zip_path_of model_name] ;;
           act (AError (lit "Error downloading model: " ++ e)) ;;
           sret false
       | DownloadOk =>
           act (AOpenWrite (zip_path_of model_name)) ;;
           create [zip_path_of model_name] ;;
           act (AInfo (lit "Model downloaded to " ++ zip_path_of model_name)) ;;
           sret true
       end
     else
       act (AInfo (lit "Model already downloaded at "
                     ++ zip_path_of model_name)) ;;
       sret true) ;;
  if negb downloaded then sret None
  else
    have_model <- path_exists_now (extracted_path_of model_name) ;;
    if negb have_model then
      act (AInfo (lit "Extracting model to " ++ model_dir_path)) ;;
      act (AExtractAll (zip_path_of model_name) model_dir_path) ;;
      match unzip w (zip_path_of model_name) model_dir_path with
      | ExtractRaises created e =>
          create created ;;
          act (AError (lit "Error extracting model: " ++ e)) ;;
          sret None
      | Extracted created =>
          create created ;;
          act (AInfo (lit "Model extracted to " ++ model_dir_path)) ;;
          sret (Some (path_join os [model_dir_path; model_name]))
      end
    else
      act (AInfo (lit "Model already extracted at "
                    ++ extracted_path_of model_name)) ;;
      sret (Some (path_join os [model_dir_path; model_name])).

(** The command line as [argparse] delivers it. *)
Record Args : Type := mkArgs {
  arg_script : str;
  arg_output : option str;
  arg_model : option str;
  arg_download_model : bool;
  arg_onedir : bool;
  arg_console : bool;
  arg_icon : option str
}.

(** No option given. *)
Definition default_args : Args :=
  mkArgs (lit "vosk_speech_to_text.py") None None false false false None.

(** The call of [build_executable] in [main]. *)
Definition build_options (args : Args) (model : option str) : BuildOptions :=
  mkBuildOptions (arg_script args) (arg_output args)
    (negb (arg_onedir args)) (arg_console args) (arg_icon args)
    (truthy_opt model) model.

(** [build_executable] run inside the script: the file system is the
    current one, the subprocess answers as the world does. *)
Definition run_build (b : BuildOptions) : Script (option str) :=
  fun fs =>
    match build_executable (os_at os fs) b
            (run_call w (pyinstaller_args (os_at os fs) b)) with
    | (evs, r) => (map ABuild evs, fs, r)
    end.

(** The model path [main] settles on. *)
Definition resolve_model (args : Args) : Script (option str) :=
  if arg_download_model args || negb (truthy_opt (arg_model args)) then
    downloaded_model <- download_vosk_model default_model_name ;;
    sret (if truthy_opt downloaded_model then downloaded_model
          else arg_model args)
  else sret (arg_model args).

Definition single_file_note : str :=
  lit "Note: For the single-file executable, you may need to manually copy "
  ++ lit "the model directory to the same location as the executable or "
  ++ lit "specify the model path when running the application.".

(** [main] *)
Definition main (args : Args) : Script unit :=
  check_dependencies ;;
  model <- resolve_model args ;;
  exe_path <- run_build (build_options args model) ;;
  if truthy_opt exe_path then
    act (AInfo (lit "Build completed successfully. Executable: "
                  ++ match exe_path with Some p => p | None => [] end)) ;;
    if negb (arg_onedir args) && truthy_opt model then
      act (AInfo single_file_note)
    else pass
  else
    act (AError (lit "Build failed")).

End Script.

(** *** Observations on the actions of the script *)

Definition is_run (a : Action) : bool :=
  match a with ARun _ => true | _ => false end.

Definition is_http_get (a : Action) : bool :=
  match a with AHttpGet _ => true | _ => false end.

Definition is_extract (a : Action) : bool :=
  match a with AExtractAll _ _ => true | _ => false end.

Definition is_makedirs (a : Action) : bool :=
  match a with AMakedirs _ => true | _ => false end.

Definition is_open_write (a : Action) : bool :=
  match a with AOpenWrite _ => true | _ => false end.

Definition is_model_load (a : Action) : bool :=
  match a with AModelLoad _ => true | _ => false end.

Definition is_build (a : Action) : bool :=
  match a with ABuild _ => true | _ => false end.

(** An action that fetches or unpacks the model. *)
Definition is_download_work (a : Action) : bool :=
  is_http_get a || is_extract a || is_makedirs a || is_open_write a.

(** The subprocesses a run of the script starts, in order: those of
    [check_dependencies] and the one of [build_executable]. *)
Fixpoint commands (acts : list Action) : list (list str) :=
  match acts with
  | [] => []
  | ARun argv :: r => argv :: commands r
  | ABuild (ECheckCall argv) :: r => argv :: commands r
  | _ :: r => commands r
  end.

(** The shape of an installation command. *)
Definition is_install_command (w : World) (argv : list str) : bool :=
  match argv with
  | [exe; m; tool; verb; _] =>
      eqb exe (executable w) && eqb m (lit "-m")
      && (eqb tool (lit "pip") || eqb tool (lit "pipwin"))
      && eqb verb (lit "install")
  | _ => false
  end.

(** Sample worlds: everything is installed and every call succeeds, with
    the download ending as given; and nothing is installed. *)
Definition missing (name : str) : ImportOutcome :=
  ImportFails (lit "No module named '" ++ name ++ lit "'").

Definition world_with (installed : str -> bool) (dl : DownloadOutcome)
  : World :=
  mkWorld (lit "/usr/bin/python3")
    (fun name => if installed name then Imported else missing name)
    (fun _ => CallOk)
    (fun _ => None) (fun _ => None) (fun _ => dl)
    (fun _ dest =>
       Extracted
         [Posix.path_join [dest; lit "vosk-model-small-en-us-0.15"]]).

Definition all_installed (dl : DownloadOutcome) : World :=
  world_with (fun _ => true) dl.

Definition nothing_installed : World :=
  world_with (fun _ => false) DownloadOk.

Definition windows : OS :=
  mkOS (fun _ => false) (lit ";") Posix.basename Posix.splitext
    Posix.path_join (lit "C:/app") (lit "win32").

(** A build with the icon, or the model, left out. *)
Definition without_icon (b : BuildOptions) : BuildOptions :=
  mkBuildOptions (script_path b) (output_name b) (one_file b) (console b)
    None (include_model b) (model_path b).

Definition without_model (b : BuildOptions) : BuildOptions :=
  mkBuildOptions (script_path b) (output_name b) (one_file b) (console b)
    (icon b) false None.

(** The modules [download_vosk_model] imports can be imported. *)
Definition download_imports_ok (w : World) : bool :=
  importable w (lit "requests") && importable w (lit "zipfile")
  && importable w (lit "tqdm").

(** The three packages [check_dependencies] looks for are installed. *)
Definition dependencies_installed (w : World) : bool :=
  importable w (lit "pyinstaller") && importable w (lit "vosk")
  && importable w (lit "pyaudio").

(** The last action is an error message. *)
Definition ends_with_error (acts : list Action) : bool :=
  match rev acts with
  | AError _ :: _ => true
  | _ => false
  end.

(** Sample command lines. *)
Definition args_with_model : Args :=
  mkArgs (lit "vosk_speech_to_text.py") None (Some (lit "/models/en"))
    false false false None.

Definition sample_os : OS := Posix.os [].

Definition interrupted : World :=
  all_installed (TransferRaises (lit "Connection reset by peer")).

Definition offline : World :=
  all_installed (RequestRaises (lit "Name or service not known")).

(** The installation commands [check_dependencies] can issue. *)
Definition expected_command (os : OS) (w : World) (argv : list str) : Prop :=
  argv = pip_install w (lit "pyinstaller")
  \/ argv = pip_install w (lit "vosk")
  \/ (eqb (platform os) (lit "win32") = true
      /\ (argv = pip_install w (lit "pipwin")
          \/ argv = pipwin_install w (lit "pyaudio")))
  \/ (eqb (platform os) (lit "win32") = false
      /\ argv = pip_install w (lit "pyaudio")).

(** The records handed to the logger, in order. *)
Fixpoint log_records (acts : list Action) : list Event :=
  match acts with
  | [] => []
  | AInfo msg :: r => ELogInfo msg :: log_records r
  | AError msg :: r => ELogError msg :: log_records r
  | ABuild (ELogInfo msg) :: r => ELogInfo msg :: log_records r
  | ABuild (ELogError msg) :: r => ELogError msg :: log_records r
  | _ :: r => log_records r
  end.

(** The package an installation command installs: its last argument. *)
Definition package_of (argv : list str) : str := last argv [].

(** The action [a] is what raised [e]: a subprocess that failed, or an
    import that raised something other than [ImportError]. *)
Definition failed (w : World) (e : str) (a : Action) : Prop :=
  match a with
  | ARun argv =>
      run_call w argv = CalledProcessError e \/ run_call w argv = OtherError e
  | AImport name => import_of w name = ImportRaises e
  | _ => False
  end.

(** What one [try] statement of [check_dependencies] can do: it adds no
    path itself; it starts no subprocess if the module is there; otherwise
    at most [n] expected commands, each for a package whose import has
    failed; and if it raises, the last thing it did is what raised. *)
Definition careful (os : OS) (w : World) (present : bool) (n : nat)
           (m : Script unit) : Prop :=
  forall fs,
    fs_after m fs = fs
    /\ Forall (expected_command os w) (commands (actions m fs))
    /\ Forall (fun argv => importable w (package_of argv) = false)
         (commands (actions m fs))
    /\ List.length (commands (actions m fs)) <= n
    /\ (present = true ->
        commands (actions m fs) = [] /\ outcome m fs = Returned tt)
    /\ (forall e,
          outcome m fs = Raised e ->
          exists pre a,
            actions m fs = pre ++ [a] /\ failed w e a).

(** Everything is installed, but loading [vosk] fails for want of a
    library. *)
Definition vosk_broken : World :=
  mkWorld (lit "/usr/bin/python3")
    (fun name => if eqb name (lit "vosk")
                 then ImportRaises (lit "cannot load library 'libvosk.so'")
                 else Imported)
    (fun _ => CallOk) (fun _ => None) (fun _ => None) (fun _ => DownloadOk)
    (fun _ _ => Extracted []).

(** Nothing is installed and every subprocess fails. *)
Definition pip_broken : World :=
  mkWorld (lit "/usr/bin/python3") missing
    (fun _ => CalledProcessError (lit "returned non-zero exit status 1"))
    (fun _ => None) (fun _ => None) (fun _ => DownloadOk)
    (fun _ _ => Extracted []).

(** The model directory, the archive and the extracted model are there. *)
Definition cached_fs : FS :=
  [lit "/home/user/app/model";
   lit "/home/user/app/vosk-model-small-en-us-0.15.zip";
   lit "/home/user/app/model/vosk-model-small-en-us-0.15"].

Definition with_missing_icon : BuildOptions :=
  mkBuildOptions sample_script None true false (Some (lit "app.ico")) true
    None.

End BuildExe.

(* ================================================================== *)
(** ** vosk_speech_to_text.py: data *)
(* ================================================================== *)

Module App.

(** [state=] of a Tk button. *)
Inductive BtnState : Type := NORMAL | DISABLED.

(** Levels of the [logging] calls the source makes. *)
Inductive Level : Type := DEBUG | INFO | ERROR.

(** A loaded Vosk model, known by the directory it was loaded from. *)
Record Model : Type := mkModel { model_dir : str }.

Record KaldiRecognizer : Type := mkRecognizer {
  rec_model : option Model;
  rec_rate : Z
}.

Inductive PyAudio : Type := PyAudioInstance.

(** Sample formats of PyAudio. *)
Inductive SampleFormat : Type :=
  paFloat32 | paInt32 | paInt24 | paInt16 | paInt8 | paUInt8.

(** The keyword arguments of [PyAudio.open]. *)
Record Stream : Type := mkStream {
  format : SampleFormat;
  channels : Z;
  rate : Z;
  input : bool;
  frames_per_buffer : Z
}.

(** The widgets the handlers read or change. [transcript_text] is the
    content of the transcript [Text] widget without the newline Tk keeps at
    its end; [debug_text] holds the lines of the debug log widget. *)
Record Widgets : Type := mkWidgets {
  status_label : str;
  status_indicator : str;
  model_path_var : str;
  check_model_button : BtnState;
  start_button : BtnState;
  stop_button : BtnState;
  transcript_text : str;
  debug_text : list (Level * str)
}.

(** The attributes of a [VoskSpeechToText] object. *)
Record App : Type := mkApp {
  is_listening : bool;
  transcription_text : str;
  thread : option nat;
  model : option Model;
  recognizer : option KaldiRecognizer;
  audio : option PyAudio;
  stream : option Stream;
  model_path : str;
  ui : Widgets
}.

(** The closures handed to [after(0, ...)]: those of [add_transcript],
    [update_partial], [update_status] and [TextHandler.emit], and the one
    of [recognize_speech], which calls [update_status]. *)
Inductive Callback : Type :=
| AddTranscriptImpl (text : str)
| UpdatePartialImpl (text : str)
| UpdateStatusImpl (status_text color : str)
| LogAppend (lvl : Level) (msg : str)
| UpdateStatus (status_text color : str).

(** Calls that leave the object: to the log's stream handler, to Tk, to the
    file system, to Vosk and to PyAudio. *)
Inductive Event : Type :=
| EStdout (lvl : Level) (msg : str)
| EAfter (cb : Callback)
| EShowError (title msg : str)
| EShowInfo (title msg : str)
| EAskDirectory
| EAskSaveAs
| EPathExists (path : str)
| EModelLoad (path : str)
| EPyAudioInit
| ERecognizerNew (m : option Model) (sample_rate : Z)
| EThreadStart (tid : nat)
| EStreamOpen (cfg : Stream)
| EStreamStart
| EStreamRead (frames : Z) (exception_on_overflow : bool)
| EStreamStop
| EStreamClose
| EAudioTerminate
| EAcceptWaveform
| EOpenFile (filename : str)
| EFileWrite (filename content : str)
| EDestroy.

(** *** Field updates *)

Definition set_status_label (v : str) (w : Widgets) : Widgets :=
  mkWidgets v (status_indicator w) (model_path_var w) (check_model_button w)
    (start_button w) (stop_button w) (transcript_text w) (debug_text w).
Definition set_status_indicator (v : str) (w : Widgets) : Widgets :=
  mkWidgets (status_label w) v (model_path_var w) (check_model_button w)
    (start_button w) (stop_button w) (transcript_text w) (debug_text w).
Definition set_model_path_var (v : str) (w : Widgets) : Widgets :=
  mkWidgets (status_label w) (status_indicator w) v (check_model_button w)
    (start_button w) (stop_button w) (transcript_text w) (debug_text w).
Definition set_check_model_button (v : BtnState) (w : Widgets) : Widgets :=
  mkWidgets (status_label w) (status_indicator w) (model_path_var w) v
    (start_button w) (stop_button w) (transcript_text w) (debug_text w).
Definition set_start_button (v : BtnState) (w : Widgets) : Widgets :=
  mkWidgets (status_label w) (status_indicator w) (model_path_var w)
    (check_model_button w) v (stop_button w) (transcript_text w) (debug_text w).
Definition set_stop_button (v : BtnState) (w : Widgets) : Widgets :=
  mkWidgets (status_label w) (status_indicator w) (model_path_var w)
    (check_model_button w) (start_button w) v (transcript_text w) (debug_text w).
Definition set_transcript_text (v : str) (w : Widgets) : Widgets :=
  mkWidgets (status_label w) (status_indicator w) (model_path_var w)
    (check_model_button w) (start_button w) (stop_button w) v (debug_text w).
Definition set_debug_text (v : list (Level * str)) (w : Widgets) : Widgets :=
  mkWidgets (status_label w) (status_indicator w) (model_path_var w)
    (check_model_button w) (start_button w) (stop_button w)
    (transcript_text w) v.

Definition set_is_listening (v : bool) (a : App) : App :=
  mkApp v (transcription_text a) (thread a) (model a) (recognizer a)
    (audio a) (stream a) (model_path a) (ui a).
Definition set_thread (v : option nat) (a : App) : App :=
  mkApp (is_listening a) (transcription_text a) v (model a) (recognizer a)
    (audio a) (stream a) (model_path a) (ui a).
Definition set_model (v : option Model) (a : App) : App :=
  mkApp (is_listening a) (transcription_text a) (thread a) v (recognizer a)
    (audio a) (stream a) (model_path a) (ui a).
Definition set_recognizer (v : option KaldiRecognizer) (a : App) : App :=
  mkApp (is_listening a) (transcription_text a) (thread a) (model a) v
    (audio a) (stream a) (model_path a) (ui a).
Definition set_audio (v : option PyAudio) (a : App) : App :=
  mkApp (is_listening a) (transcription_text a) (thread a) (model a)
    (recognizer a) v (stream a) (model_path a) (ui a).
Definition set_stream (v : option Stream) (a : App) : App :=
  mkApp (is_listening a) (transcription_text a) (thread a) (model a)
    (recognizer a) (audio a) v (model_path a) (ui a).
Definition set_ui (v : Widgets) (a : App) : App :=
  mkApp (is_listening a) (transcription_text a) (thread a) (model a)
    (recognizer a) (audio a) (stream a) (model_path a) v.

(** *** The Tk [Text] widget, by its content

    Tk keeps one newline at the end of a [Text] widget that cannot be
    deleted; [insert(END, s)] places [s] before it. *)
Module TkText.
Definition get_all (content : str) : str := content ++ newline.
Definition insert_end (s : str) (content : str) : str := content ++ s.
Definition delete_all (content : str) : str := [].
End TkText.

(* ================================================================== *)
(** ** vosk_speech_to_text.py: the methods *)
(* ================================================================== *)

(** A method reads and updates the object and makes outside calls. *)
Definition M (A : Type) : Type := App -> A * App * list Event.

Definition ret {A : Type} (a : A) : M A := fun s => (a, s, []).

Definition bind {A B : Type} (m : M A) (k : A -> M B) : M B :=
  fun s =>
    match m s with
    | (a, s1, e1) =>
        match k a s1 with
        | (b, s2, e2) => (b, s2, e1 ++ e2)
        end
    end.

Declare Scope method_scope.
Delimit Scope method_scope with method.
Notation "x <- c ;; k" := (bind c (fun x => k))
  (at level 61, c at next level, right associativity) : method_scope.
Notation "c ;; k" := (bind c (fun _ => k))
  (at level 61, right associativity) : method_scope.
Local Open Scope method_scope.

Definition gets {A : Type} (f : App -> A) : M A := fun s => (f s, s, []).
Definition modify (f : App -> App) : M unit := fun s => (tt, f s, []).
Definition modify_ui (f : Widgets -> Widgets) : M unit :=
  modify (fun s => set_ui (f (ui s)) s).
Definition emit (e : Event) : M unit := fun s => (tt, s, [e]).
Definition skip : M unit := ret tt.

Definition result {A : Type} (m : M A) (s : App) : A := fst (fst (m s)).
Definition exec {A : Type} (m : M A) (s : App) : App := snd (fst (m s)).
Definition events {A : Type} (m : M A) (s : App) : list Event := snd (m s).

(** How a call into a library ends. *)
Inductive Outcome : Type :=
| Ok
| Raises (e : str).

(** A call on [logger] once [create_widgets] has added the [TextHandler]:
    the handlers of the logger itself run first, so [TextHandler.emit]
    schedules the insertion into the debug widget with
    [text_widget.after(0, append)]; then the record goes up to the root
    logger, whose stream handler (set by [basicConfig]) writes it out. *)
Definition logger (lvl : Level) (msg : str) : M unit :=
  emit (EAfter (LogAppend lvl msg)) ;;
  emit (EStdout lvl msg).

(** A call on [logger] before the [TextHandler] is added: the record is
    written out and nothing else. *)
Definition logger_early (lvl : Level) (msg : str) : M unit :=
  emit (EStdout lvl msg).

(** [__init__] and [create_widgets]: the object once constructed. *)
Definition init_widgets : Widgets :=
  mkWidgets (lit "Status: Ready") (lit "gray") (lit "./model")
    NORMAL DISABLED DISABLED [] [].

Definition init_app (cwd_model : str) : App :=
  mkApp false [] None None None None None cwd_model init_widgets.

(** What [main] and the constructor log before the main loop starts: three
    records before the [TextHandler] is there, then the last record of
    [create_widgets], the last of [__init__] and the one of [main]. *)
Definition startup : M unit :=
  logger_early INFO (lit "Starting Vosk Speech-to-Text application") ;;
  logger_early DEBUG (lit "Initializing VoskSpeechToText application") ;;
  logger_early DEBUG (lit "Creating GUI widgets") ;;
  logger DEBUG (lit "GUI widgets created successfully") ;;
  logger DEBUG (lit "Application initialized successfully") ;;
  logger INFO (lit "Entering main loop").

(** [browse_model]; [model_dir] is what [askdirectory] returns. *)
Definition browse_model (model_dir : str) : M unit :=
  logger DEBUG (lit "Browsing for model directory") ;;
  emit EAskDirectory ;;
  if truthy model_dir then
    modify_ui (set_model_path_var model_dir) ;;
    logger DEBUG (lit "Model directory selected: " ++ model_dir)
  else skip.

(** [check_model]; [path_exists] answers [os.path.exists] and [load] is how
    [Model(model_path)] ends. *)
Definition check_model (path_exists : bool) (load : Outcome) : M unit :=
  p <- gets (fun s => model_path_var (ui s)) ;;
  logger DEBUG (lit "Checking model at path: " ++ p) ;;
  emit (EPathExists p) ;;
  if negb path_exists then
    logger ERROR (lit "Model path does not exist: " ++ p) ;;
    emit (EShowError (lit "Model Error")
            (lit "Model directory not found: " ++ p))
  else
    logger DEBUG (lit "Loading Vosk model...") ;;
    emit (EModelLoad p) ;;
    match load with
    | Ok =>
        modify (set_model (Some (mkModel p))) ;;
        logger INFO (lit "Vosk model loaded successfully") ;;
        emit (EShowInfo (lit "Model Check")
                (lit "Vosk model loaded successfully!")) ;;
        modify_ui (set_start_button NORMAL)
    | Raises e =>
        logger ERROR (lit "Error loading Vosk model: " ++ e) ;;
        emit (EShowError (lit "Model Error")
                (lit "Failed to load Vosk model: " ++ e))
    end.

(** [update_status] *)
Definition update_status (status_text color : str) : M unit :=
  emit (EAfter (UpdateStatusImpl status_text color)).

(** Which statement of the [try] block of [start_listening] raises, if any. *)
Inductive StartOutcome : Type :=
| StartOk
| PyAudioRaises (e : str)
| RecognizerRaises (e : str)
| ThreadStartRaises (e : str).

Definition start_failed (e : str) : M unit :=
  modify (set_is_listening false) ;;
  logger ERROR (lit "Error starting speech recognition: " ++ e) ;;
  emit (EShowError (lit "Start Error")
          (lit "Failed to start speech recognition: " ++ e)) ;;
  update_status (lit "Error") (lit "red").

(** [start_listening]; [tid] names the thread object it creates. *)
Definition start_listening (tid : nat) (o : StartOutcome) : M unit :=
  l <- gets is_listening ;;
  if l then
    logger DEBUG (lit "Already listening, ignoring start request")
  else
    logger DEBUG (lit "Starting speech recognition") ;;
    modify (set_is_listening true) ;;
    update_status (lit "Listening...") (lit "green") ;;
    emit EPyAudioInit ;;
    match o with
    | PyAudioRaises e => start_failed e
    | _ =>
        modify (set_audio (Some PyAudioInstance)) ;;
        m <- gets model ;;
        emit (ERecognizerNew m 16000) ;;
        match o with
        | RecognizerRaises e => start_failed e
        | _ =>
            modify (set_recognizer (Some (mkRecognizer m 16000))) ;;
            modify (set_thread (Some tid)) ;;
            match o with
            | ThreadStartRaises e => start_failed e
            | _ =>
                emit (EThreadStart tid) ;;
                modify_ui (set_start_button DISABLED) ;;
                modify_ui (set_stop_button NORMAL) ;;
                modify_ui (set_check_model_button DISABLED) ;;
                logger INFO (lit "Speech recognition started")
            end
        end
    end.

(** Which statement of the [try] block of [stop_listening] raises, if any. *)
Inductive CloseOutcome : Type :=
| CloseOk
| StopStreamRaises (e : str)
| CloseRaises (e : str).

(** [stop_listening] *)
Definition stop_listening (o : CloseOutcome) : M unit :=
  l <- gets is_listening ;;
  if negb l then
    logger DEBUG (lit "Not listening, ignoring stop request")
  else
    logger DEBUG (lit "Stopping speech recognition") ;;
    modify (set_is_listening false) ;;
    update_status (lit "Stopped") (lit "gray") ;;
    st <- gets stream ;;
    match st with
    | Some _ =>
        emit EStreamStop ;;
        match o with
        | StopStreamRaises e =>
            logger ERROR (lit "Error closing audio stream: " ++ e)
        | _ =>
            emit EStreamClose ;;
            match o with
            | CloseRaises e =>
                logger ERROR (lit "Error closing audio stream: " ++ e)
            | _ => skip
            end
        end
    | None => skip
    end ;;
    a <- gets audio ;;
    match a with
    | Some _ => emit EAudioTerminate ;; modify (set_audio None)
    | None => skip
    end ;;
    modify_ui (set_start_button NORMAL) ;;
    modify_ui (set_stop_button DISABLED) ;;
    modify_ui (set_check_model_button NORMAL) ;;
    logger INFO (lit "Speech recognition stopped").

(** [add_transcript], [update_partial]: the closure is queued, nothing is
    run. *)
Definition add_transcript (text : str) : M unit :=
  emit (EAfter (AddTranscriptImpl text)).

Definition update_partial (text : str) : M unit :=
  emit (EAfter (UpdatePartialImpl text)).

(** [_add_transcript_impl] ([see(END)] only scrolls). *)
Definition _add_transcript_impl (text : str) : M unit :=
  if truthy (strip text) then
    current_text <-
      gets (fun s => strip (TkText.get_all (transcript_text (ui s)))) ;;
    if truthy current_text then
      modify_ui (fun w =>
        set_transcript_text
          (TkText.insert_end (space ++ strip text ++ newline)
             (transcript_text w)) w)
    else
      modify_ui (fun w =>
        set_transcript_text
          (TkText.insert_end (strip text ++ newline) (transcript_text w)) w)
  else skip.

(** [_update_partial_impl] *)
Definition _update_partial_impl (text : str) : M unit :=
  modify_ui (set_status_label
    (lit "Status: Listening... [Partial: " ++ take 20 text
       ++ (if Nat.ltb 20 (List.length text) then lit "..." else [])
       ++ lit "]")).

(** [_update_status_impl] *)
Definition _update_status_impl (status_text color : str) : M unit :=
  modify_ui (set_status_label (lit "Status: " ++ status_text)) ;;
  modify_ui (set_status_indicator color).

(** The closure [append] of [TextHandler.emit]. *)
Definition log_append (lvl : Level) (msg : str) : M unit :=
  modify_ui (fun w => set_debug_text (debug_text w ++ [(lvl, msg)]) w).

(** Running a queued closure on the UI thread. *)
Definition run_callback (cb : Callback) : M unit :=
  match cb with
  | AddTranscriptImpl text => _add_transcript_impl text
  | UpdatePartialImpl text => _update_partial_impl text
  | UpdateStatusImpl status_text color => _update_status_impl status_text color
  | LogAppend lvl msg => log_append lvl msg
  | UpdateStatus status_text color => update_status status_text color
  end.

(** [clear_transcript] *)
Definition clear_transcript : M unit :=
  logger DEBUG (lit "Clearing transcript") ;;
  modify_ui (fun w =>
    set_transcript_text (TkText.delete_all (transcript_text w)) w).

(** Where writing the file fails, if it does. *)
Inductive FileOutcome : Type :=
| FileOk
| OpenRaises (e : str)
| WriteRaises (e : str).

Definition save_failed (e : str) : M unit :=
  logger ERROR (lit "Error saving transcript: " ++ e) ;;
  emit (EShowError (lit "Save Error")
          (lit "Failed to save transcript: " ++ e)).

(** [save_transcript]; [filename] is what [asksaveasfilename] returns (empty
    when the user cancels). *)
Definition save_transcript (filename : str) (fo : FileOutcome) : M unit :=
  transcript <-
    gets (fun s => strip (TkText.get_all (transcript_text (ui s)))) ;;
  if negb (truthy transcript) then
    logger DEBUG (lit "No transcript to save") ;;
    emit (EShowInfo (lit "Save Transcript") (lit "No transcript to save."))
  else
    emit EAskSaveAs ;;
    if truthy filename then
      logger DEBUG (lit "Saving transcript to " ++ filename) ;;
      emit (EOpenFile filename) ;;
      match fo with
      | OpenRaises e => save_failed e
      | _ =>
          emit (EFileWrite filename transcript) ;;
          match fo with
          | WriteRaises e => save_failed e
          | _ =>
              logger INFO (lit "Transcript saved to " ++ filename) ;;
              emit (EShowInfo (lit "Save Transcript")
                      (lit "Transcript saved to " ++ filename))
          end
      end
    else skip.

(** [on_closing] of [main] *)
Definition on_closing (o : CloseOutcome) : M unit :=
  l <- gets is_listening ;;
  (if l then stop_listening o else skip) ;;
  logger INFO (lit "Application closing") ;;
  emit EDestroy.

(* ================================================================== *)
(** ** The recognition thread *)
(* ================================================================== *)

(** Where a thread running [recognize_speech] stands. [WHead] is the test of
    the [while], [WBody] the start of its body, [WHandler e] the [except]
    clause inside the loop with [e] caught. *)
Inductive WPc : Type :=
| WStart
| WHead
| WBody
| WHandler (e : str)
| WDone.

(** How opening the microphone ends. *)
Inductive OpenOutcome : Type :=
| OpenOk
| OpenFails (e : str)
| StartStreamFails (e : str).

(** What one pass through the loop body meets: the read raises, returns no
    data, or returns data for which the recognizer gives a final result with
    its ["text"], a partial result with its ["partial"], or raises (in
    [AcceptWaveform], [Result], [PartialResult] or [json.loads]). *)
Inductive Chunk : Type :=
| ReadRaises (e : str)
| ReadEmpty
| FinalResult (text : str)
| PartialResult (partial : str)
| RecognitionRaises (e : str).

Record WorkerOracle : Type := mkWorkerOracle {
  open_outcome : OpenOutcome;
  chunk : Chunk
}.

(** The arguments of [self.audio.open]. *)
Definition microphone : Stream := mkStream paInt16 1 16000 true 8000.

(** The [except] clause around the whole of [recognize_speech]. *)
Definition thread_failed (e : str) : M WPc :=
  logger ERROR (lit "Error in speech recognition thread: " ++ e) ;;
  modify (set_is_listening false) ;;
  emit (EAfter (UpdateStatus (lit "Error") (lit "red"))) ;;
  ret WDone.

Definition loop_exit : M WPc :=
  logger DEBUG (lit "Recognition thread exiting") ;;
  ret WDone.

(** One step of [recognize_speech] from [pc]. *)
Definition worker_step (o : WorkerOracle) (pc : WPc) : M WPc :=
  match pc with
  | WStart =>
      logger DEBUG (lit "Starting speech recognition thread") ;;
      a <- gets audio ;;
      match a with
      | None => thread_failed (lit "'NoneType' object has no attribute 'open'")
      | Some _ =>
          emit (EStreamOpen microphone) ;;
          match open_outcome o with
          | OpenFails e => thread_failed e
          | _ =>
              modify (set_stream (Some microphone)) ;;
              emit EStreamStart ;;
              match open_outcome o with
              | StartStreamFails e => thread_failed e
              | _ =>
                  logger DEBUG (lit "Microphone stream opened") ;;
                  ret WHead
              end
          end
      end
  | WHead =>
      l <- gets is_listening ;;
      if l then ret WBody else loop_exit
  | WBody =>
      emit (EStreamRead 4000 false) ;;
      match chunk o with
      | ReadRaises e => ret (WHandler e)
      | ReadEmpty =>
          logger DEBUG (lit "Empty audio data received") ;;
          ret WHead
      | FinalResult transcript =>
          emit EAcceptWaveform ;;
          (if truthy transcript then
             logger DEBUG (lit "Recognized: " ++ transcript) ;;
             add_transcript transcript
           else skip) ;;
          ret WHead
      | PartialResult partial_text =>
          emit EAcceptWaveform ;;
          (if truthy partial_text then update_partial partial_text
           else skip) ;;
          ret WHead
      | RecognitionRaises e =>
          emit EAcceptWaveform ;;
          ret (WHandler e)
      end
  | WHandler e =>
      logger ERROR (lit "Error in recognition loop: " ++ e) ;;
      l <- gets is_listening ;;
      if negb l then loop_exit else ret WHead
  | WDone => ret WDone
  end.

(* ================================================================== *)
(** ** The running application *)
(* ================================================================== *)

(** The UI thread runs one handler or one queued closure at a time; the
    recognition threads advance one [worker_step] at a time in between. A
    button runs its command only while its state is [NORMAL]. *)

Inductive Actor : Type :=
| UIThread
| Worker (tid : nat).

Record Sys : Type := mkSys {
  app : App;
  pending : list Callback;          (* closures queued by [after], oldest first *)
  workers : list WPc;               (* the threads started so far *)
  trace : list (Actor * Event);     (* every outside call made so far *)
  destroyed : bool
}.

Fixpoint callbacks_of (evs : list Event) : list Callback :=
  match evs with
  | [] => []
  | EAfter cb :: r => cb :: callbacks_of r
  | _ :: r => callbacks_of r
  end.

Fixpoint spawned (evs : list Event) : list WPc :=
  match evs with
  | [] => []
  | EThreadStart _ :: r => WStart :: spawned r
  | _ :: r => spawned r
  end.

Definition is_destroy (e : Event) : bool :=
  match e with EDestroy => true | _ => false end.

(** The effect on the system of a method that ended in [a] having made the
    calls [evs]. *)
Definition absorb (who : Actor) (a : App) (evs : list Event) (s : Sys) : Sys :=
  mkSys a
    (pending s ++ callbacks_of evs)
    (workers s ++ spawned evs)
    (trace s ++ map (pair who) evs)
    (destroyed s || existsb is_destroy evs).

Definition ui_run (m : M unit) (s : Sys) : Sys :=
  absorb UIThread (exec m (app s)) (events m (app s)) s.

(** The application as [main] hands it to the main loop, [cwd_model] being
    the [model] directory under the current directory: the object as the
    constructor leaves it, no thread, and the calls and queued closures of
    [startup]. *)
Definition init_sys (cwd_model : str) : Sys :=
  ui_run startup (mkSys (init_app cwd_model) [] [] [] false).

Definition enabled (b : BtnState) : bool :=
  match b with NORMAL => true | DISABLED => false end.

Fixpoint set_nth {A : Type} (n : nat) (x : A) (l : list A) : list A :=
  match l, n with
  | [], _ => []
  | _ :: r, O => x :: r
  | y :: r, S m => y :: set_nth m x r
  end.

Definition with_pending (q : list Callback) (s : Sys) : Sys :=
  mkSys (app s) q (workers s) (trace s) (destroyed s).

Definition with_workers (w : list WPc) (s : Sys) : Sys :=
  mkSys (app s) (pending s) w (trace s) (destroyed s).

Definition is_done (pc : WPc) : bool :=
  match pc with WDone => true | _ => false end.

(** What can happen next, with the answers of the outside world. *)
Inductive Label : Type :=
| ClickBrowse (model_dir : str)
| ClickCheckModel (path_exists : bool) (load : Outcome)
| ClickStart (o : StartOutcome)
| ClickStop (o : CloseOutcome)
| ClickClear
| ClickSave (filename : str) (fo : FileOutcome)
| RunCallback
| WorkerStep (tid : nat) (o : WorkerOracle)
| CloseWindow (o : CloseOutcome).

Definition sys_step (l : Label) (s : Sys) : option Sys :=
  if destroyed s then None else
  match l with
  | ClickBrowse d => Some (ui_run (browse_model d) s)
  | ClickCheckModel ex ld =>
      if enabled (check_model_button (ui (app s)))
      then Some (ui_run (check_model ex ld) s) else None
  | ClickStart o =>
      if enabled (start_button (ui (app s)))
      then Some (ui_run (start_listening (List.length (workers s)) o) s)
      else None
  | ClickStop o =>
      if enabled (stop_button (ui (app s)))
      then Some (ui_run (stop_listening o) s) else None
  | ClickClear => Some (ui_run clear_transcript s)
  | ClickSave f fo => Some (ui_run (save_transcript f fo) s)
  | RunCallback =>
      match pending s with
      | [] => None
      | cb :: q => Some (ui_run (run_callback cb) (with_pending q s))
      end
  | WorkerStep tid o =>
      match nth_error (workers s) tid with
      | None => None
      | Some pc =>
          if is_done pc then None
          else
            let m := worker_step o pc in
            Some (absorb (Worker tid) (exec m (app s)) (events m (app s))
                    (with_workers (set_nth tid (result m (app s)) (workers s))
                       s))
      end
  | CloseWindow o => Some (ui_run (on_closing o) s)
  end.

Fixpoint run (sched : list Label) (s : Sys) : option Sys :=
  match sched with
  | [] => Some s
  | l :: r =>
      match sys_step l s with
      | Some s1 => run r s1
      | None => None
      end
  end.

Definition reachable (s : Sys) : Prop :=
  exists cwd_model sched, run sched (init_sys cwd_model) = Some s.

(* ================================================================== *)
(** ** Observations on events and traces *)
(* ================================================================== *)

Definition is_read (e : Event) : bool :=
  match e with EStreamRead _ _ => true | _ => false end.

(** A modal dialog, or any other call that touches Tk directly instead of
    going through [after]. *)
Definition is_dialog (e : Event) : bool :=
  match e with
  | EShowError _ _ | EShowInfo _ _ | EAskDirectory | EAskSaveAs => true
  | _ => false
  end.

Definition is_error_dialog (e : Event) : bool :=
  match e with EShowError _ _ => true | _ => false end.

Definition is_error_log (e : Event) : bool :=
  match e with EStdout ERROR _ => true | _ => false end.

Definition is_model_load (e : Event) : bool :=
  match e with EModelLoad _ => true | _ => false end.

Definition is_audio_init (e : Event) : bool :=
  match e with EPyAudioInit => true | _ => false end.

Definition is_recognizer_new (e : Event) : bool :=
  match e with ERecognizerNew _ _ => true | _ => false end.

Definition is_thread_start (e : Event) : bool :=
  match e with EThreadStart _ => true | _ => false end.

Definition is_open_file (e : Event) : bool :=
  match e with EOpenFile _ => true | _ => false end.

Definition is_file_write (e : Event) : bool :=
  match e with EFileWrite _ _ => true | _ => false end.

Definition is_stream_open (e : Event) : bool :=
  match e with EStreamOpen _ => true | _ => false end.

Definition count (p : Event -> bool) (evs : list Event) : nat :=
  List.length (filter p evs).

(** Number of chunks thread [tid] has read in a trace; the loop body of
    [recognize_speech] starts with the read, so this is also the number of
    times that thread entered the body. *)
Definition by_worker (tid : nat) (ae : Actor * Event) : bool :=
  match fst ae with
  | Worker t => Nat.eqb t tid && is_read (snd ae)
  | UIThread => false
  end.

Definition reads_by (tid : nat) (tr : list (Actor * Event)) : nat :=
  List.length (filter (by_worker tid) tr).

(** Where thread [tid] stands; a thread that was never started counts as
    finished. *)
Definition pc_of (tid : nat) (s : Sys) : WPc := nth tid (workers s) WDone.

Definition is_worker_step (tid : nat) (l : Label) : bool :=
  match l with WorkerStep t _ => Nat.eqb t tid | _ => false end.

Definition is_click_start (l : Label) : bool :=
  match l with ClickStart _ => true | _ => false end.

Definition is_click_clear (l : Label) : bool :=
  match l with ClickClear => true | _ => false end.

Definition is_model_loaded (l : Label) : bool :=
  match l with ClickCheckModel true Ok => true | _ => false end.

(** Steps a thread still has to take to leave [recognize_speech] once
    [is_listening] is false. *)
Definition rank (pc : WPc) : nat :=
  match pc with
  | WStart => 2
  | WBody => 2
  | WHead => 1
  | WHandler _ => 1
  | WDone => 0
  end.

Definition transcript (s : Sys) : str := transcript_text (ui (app s)).

(** *** Further observations and sample runs *)

(** The start button can be clicked, or a recognition is under way. *)
Definition start_possible (s : Sys) : Prop :=
  start_button (ui (app s)) = NORMAL \/ is_listening (app s) = true.

(** The audio parameters the specification names, on a call and on the
    object. *)
Definition audio_params_ok (e : Event) : Prop :=
  match e with
  | EStreamOpen cfg =>
      format cfg = paInt16 /\ channels cfg = 1%Z /\ rate cfg = 16000%Z
      /\ input cfg = true
  | ERecognizerNew _ sample_rate => sample_rate = 16000%Z
  | _ => True
  end.

Definition audio_state_ok (a : App) : Prop :=
  (forall r, recognizer a = Some r -> rec_rate r = 16000%Z)
  /\ (forall c, stream a = Some c -> c = microphone).

Definition audio_ok (s : Sys) : Prop :=
  Forall (fun ae => audio_params_ok (snd ae)) (trace s)
  /\ audio_state_ok (app s).

Definition body_due (pc : WPc) : nat :=
  match pc with WBody => 1 | _ => 0 end.

Definition count_steps (tid : nat) (sched : list Label) : nat :=
  List.length (filter (is_worker_step tid) sched).

Definition reads_of (who : Actor) (tid : nat) (evs : list Event) : nat :=
  match who with
  | Worker t => if Nat.eqb t tid then count is_read evs else 0
  | UIThread => 0
  end.

(** A method that neither sets [is_listening] nor starts a thread. *)
Definition quiet (m : M unit) : Prop :=
  forall s,
    is_listening s = false ->
    is_listening (exec m s) = false /\ spawned (events m s) = [].

(** The state a schedule leads to (the starting state if some step of it
    cannot be taken). *)
Definition after (sched : list Label) (s : Sys) : Sys :=
  match run sched s with Some s' => s' | None => s end.

Definition sample_init : Sys := init_sys (lit "/home/user/app/model").

Definition heard (text : string) : WorkerOracle :=
  mkWorkerOracle OpenOk (FinalResult (lit text)).

Definition read_fails : WorkerOracle :=
  mkWorkerOracle OpenOk (ReadRaises (lit "Stream closed")).

(** The model is loaded, listening has started, and the thread is inside
    the loop body, about to read. *)
Definition sched_listening : list Label :=
  [ClickCheckModel true Ok; ClickStart StartOk;
   WorkerStep 0 (heard ""); WorkerStep 0 (heard "")].

Definition opens : WorkerOracle := mkWorkerOracle OpenOk ReadEmpty.

(** Stop is clicked, then start again before the first thread has looked at
    [is_listening]: its read fails on the closed stream, its handler finds
    the flag true again, and it goes on reading, now from the stream the
    second thread has opened. *)
Definition sched_restart : list Label :=
  [ClickStart StartOk;
   WorkerStep 0 read_fails; WorkerStep 0 read_fails;
   WorkerStep 1 opens;
   WorkerStep 0 (heard ""); WorkerStep 0 (heard "two");
   WorkerStep 0 (heard ""); WorkerStep 0 (heard "three");
   WorkerStep 0 (heard "")].

(** What is observed of thread 0: the flag, where the thread stands, and how
    many chunks it has read. *)
Definition observe (s : Sys) : bool * WPc * nat :=
  (is_listening (app s), pc_of 0 s, reads_by 0 (trace s)).

Definition start_error (o : StartOutcome) : option str :=
  match o with
  | StartOk => None
  | PyAudioRaises e | RecognizerRaises e | ThreadStartRaises e => Some e
  end.

Definition file_error (fo : FileOutcome) : option str :=
  match fo with
  | FileOk => None
  | OpenRaises e | WriteRaises e => Some e
  end.

Definition open_error (oo : OpenOutcome) : option str :=
  match oo with
  | OpenOk => None
  | OpenFails e | StartStreamFails e => Some e
  end.

(** Logged at level [ERROR] (on both handlers) and shown in a modal error
    box. *)
Definition reported (log_msg title msg : str) (evs : list Event) : Prop :=
  In (EStdout ERROR log_msg) evs
  /\ In (EAfter (LogAppend ERROR log_msg)) evs
  /\ In (EShowError title msg) evs.

(** Logged at level [ERROR], no dialog of any kind. *)
Definition logged_only (log_msg : str) (evs : list Event) : Prop :=
  In (EStdout ERROR log_msg) evs
  /\ In (EAfter (LogAppend ERROR log_msg)) evs
  /\ existsb is_dialog evs = false.

(** The calls a schedule adds to the trace. *)
Definition new_events (sched : list Label) (s : Sys)
  : option (list (Actor * Event)) :=
  option_map (fun s' => skipn (List.length (trace s)) (trace s'))
    (run sched s).

Definition sched_read_error : list Label :=
  [WorkerStep 0 read_fails; WorkerStep 0 read_fails;
   WorkerStep 0 read_fails;
   WorkerStep 0 read_fails; WorkerStep 0 read_fails].

Definition sched_open_error : list Label :=
  [ClickCheckModel true Ok; ClickStart StartOk;
   WorkerStep 0 (mkWorkerOracle (OpenFails (lit "Device unavailable"))
                   ReadEmpty)].

(** States of the sample runs: listening with thread 0 about to read; the
    same after a click on stop; and listening with the closure that adds
    [hello world] to the transcript next in the queue. *)
Definition listening_sys : Sys := after sched_listening sample_init.

Definition stopped_sys : Sys :=
  after (sched_listening ++ [ClickStop CloseOk]) sample_init.

Definition sched_heard : list Label :=
  sched_listening ++ [WorkerStep 0 (heard " hello world ")]
    ++ repeat RunCallback 12.

Definition heard_sys : Sys := after sched_heard sample_init.

(** After the stop: thread 0 finishes the pass it had begun and leaves. *)
Definition sched_wind_down : list Label :=
  [WorkerStep 0 (heard "late"); RunCallback; WorkerStep 0 (heard "")].

Definition no_audio_device : StartOutcome :=
  PyAudioRaises (lit "No Default Input Device Available").

(** *** Observations for the further properties *)

(** The buttons agree with one another and with [is_listening]: stop is
    enabled only while start and check-model are not; while listening, stop
    is enabled and the audio object and a recognizer built from the loaded
    model at 16000 Hz are in place. *)
Definition controls_ok (a : App) : Prop :=
  (stop_button (ui a) = NORMAL ->
   start_button (ui a) = DISABLED /\ check_model_button (ui a) = DISABLED)
  /\ (is_listening a = true ->
      stop_button (ui a) = NORMAL
      /\ audio a = Some PyAudioInstance
      /\ recognizer a = Some (mkRecognizer (model a) 16000)
      /\ model a <> None)
  /\ (start_button (ui a) = NORMAL -> model a <> None).

(** Inside the loop of [recognize_speech]: the microphone has been opened
    and the thread has not left. *)
Definition in_loop (pc : WPc) : bool :=
  match pc with
  | WHead | WBody | WHandler _ => true
  | WStart | WDone => false
  end.

(** What has happened before a thread reads: every thread inside the loop,
    and every thread that has read a chunk, has opened the microphone with
    the arguments [microphone]; and if a thread was ever started, a
    recognizer was constructed at 16000 Hz. *)
Definition opened_ok (s : Sys) : Prop :=
  (forall tid,
     in_loop (pc_of tid s) = true ->
     In (Worker tid, EStreamOpen microphone) (trace s))
  /\ (forall tid frames b,
        In (Worker tid, EStreamRead frames b) (trace s) ->
        In (Worker tid, EStreamOpen microphone) (trace s))
  /\ (workers s <> [] ->
      exists m, In (UIThread, ERecognizerNew m 16000) (trace s)).

(** A method that starts a thread only after constructing a recognizer at
    16000 Hz. *)
Definition spawn_ok (m : M unit) : Prop :=
  forall a,
    spawned (events m a) = []
    \/ exists mm, In (ERecognizerNew mm 16000) (events m a).

(** Not listening, and neither start nor check-model can be clicked. *)
Definition start_locked (a : App) : Prop :=
  is_listening a = false
  /\ start_button (ui a) = DISABLED
  /\ check_model_button (ui a) = DISABLED.

(** The log records among a list of calls, and among queued closures. *)
Fixpoint logged (evs : list Event) : list (Level * str) :=
  match evs with
  | [] => []
  | EAfter (LogAppend lvl msg) :: r => (lvl, msg) :: logged r
  | _ :: r => logged r
  end.


Definition is_audio_terminate (e : Event) : bool :=
  match e with EAudioTerminate => true | _ => false end.

(** Only whitespace. *)
Definition blank (s : str) : bool := forallb is_space s.

(** Begins or ends with whitespace. *)
Definition ragged (s : str) : bool :=
  match s with
  | [] => false
  | c :: r => is_space c || is_space (last r c)
  end.

Definition partial_prefix : str := lit "Status: Listening... [Partial: ".



(** The records written out by the stream handler among a list of calls. *)
Fixpoint written (evs : list Event) : list (Level * str) :=
  match evs with
  | [] => []
  | EStdout lvl msg :: r => (lvl, msg) :: written r
  | _ :: r => written r
  end.


(** A method that hands every record it logs to both handlers. *)
Definition paired {A : Type} (m : M A) : Prop :=
  forall a, written (events m a) = logged (events m a).




(** The microphone cannot be opened. *)
Definition no_microphone : WorkerOracle :=
  mkWorkerOracle (OpenFails (lit "Device unavailable")) ReadEmpty.

(** The sample run in which the thread fails to open the microphone, and
    what the user may try afterwards. *)
Definition locked_sys : Sys := after sched_open_error sample_init.

Definition sched_try_again : list Label :=
  [ClickStop CloseOk; ClickBrowse (lit "/models/en"); RunCallback;
   ClickClear; ClickStop CloseOk].

(* ================================================================== *)
(** ** Properties of the methods *)
(* ================================================================== *)

Ltac unfold_methods :=
  unfold ui_run, absorb, exec, events, result,
    on_closing, run_callback, worker_step,
    browse_model, check_model, start_listening, start_failed,
    stop_listening, save_transcript, save_failed, clear_transcript,
    thread_failed, loop_exit, update_status, add_transcript, update_partial,
    _add_transcript_impl, _update_partial_impl, _update_status_impl,
    log_append,
    logger, bind, ret, gets, modify, modify_ui, emit, skip in *.

(** Case analysis on what a method branches on. *)
Ltac branch :=
  match goal with
  | |- context [match ?x with _ => _ end] => is_var x; destruct x
  | |- context [match negb ?b with _ => _ end] => destruct b eqn:?
  | |- context [match is_listening ?s with _ => _ end] =>
      destruct (is_listening s) eqn:?
  | |- context [match audio ?s with _ => _ end] => destruct (audio s) eqn:?
  | |- context [match stream ?s with _ => _ end] => destruct (stream s) eqn:?
  | |- context [match truthy ?t with _ => _ end] => destruct (truthy t) eqn:?
  | |- context [match open_outcome ?o with _ => _ end] =>
      destruct (open_outcome o) eqn:?
  | |- context [match chunk ?o with _ => _ end] => destruct (chunk o) eqn:?
  end.

Ltac branches := cbn; repeat (branch; cbn).

Lemma lstrip_all_space (s : str) :
  forallb is_space s = true -> lstrip s = [].
Proof.
  induction s as [|c r IH]; simpl; [reflexivity|].
  intros H. apply andb_true_iff in H. destruct H as [Hc Hr].
  rewrite Hc. apply IH, Hr.
Qed.

Lemma strip_all_space (s : str) :
  forallb is_space s = true -> strip s = [].
Proof.
  intros H. unfold strip. rewrite (lstrip_all_space s H). reflexivity.
Qed.

(** C9. [start_listening] while already listening and [stop_listening] while
    not listening return at once: the object is left exactly as it was (no
    thread, recognizer, audio object or button is touched) and the only call
    made is the debug log line saying the request is ignored. *)
Theorem start_stop_noop_when_redundant :
  (forall tid o s,
     is_listening s = true ->
     exec (start_listening tid o) s = s
     /\ events (start_listening tid o) s
        = events (logger DEBUG
                    (lit "Already listening, ignoring start request")) s)
  /\
  (forall o s,
     is_listening s = false ->
     exec (stop_listening o) s = s
     /\ events (stop_listening o) s
        = events (logger DEBUG
                    (lit "Not listening, ignoring stop request")) s).
Proof.
  split; intros; unfold_methods; cbn; rewrite H; cbn; split; reflexivity.
Qed.

(** C7. A call of [stop_listening] made while [is_listening] is true
    returns with the start button [NORMAL], the stop button [DISABLED] and
    [is_listening] false, whether or not closing the stream raised. *)
Theorem stop_reenables_start :
  forall o s,
    is_listening s = true ->
    start_button (ui (exec (stop_listening o) s)) = NORMAL
    /\ stop_button (ui (exec (stop_listening o) s)) = DISABLED
    /\ is_listening (exec (stop_listening o) s) = false.
Proof.
  intros o s H. unfold_methods. cbn. rewrite H. branches; auto.
Qed.

Lemma strip_get_all_space (content : str) :
  forallb is_space content = true ->
  strip (TkText.get_all content) = [].
Proof.
  intros H. apply strip_all_space. unfold TkText.get_all.
  rewrite forallb_app, H. reflexivity.
Qed.

(** C10. Saving an empty transcript is a guarded no-op: when the transcript
    widget holds only whitespace, [save_transcript] logs, shows the
    information box and returns, without asking for a file name and without
    opening or writing a file. In every call, a file is opened or written
    only if the stripped transcript is non-empty and the user has given a
    file name; it is that file, and what is written is the stripped
    transcript. *)
Theorem save_empty_transcript_guarded :
  (forall filename fo s,
     forallb is_space (transcript_text (ui s)) = true ->
     exec (save_transcript filename fo) s = s
     /\ events (save_transcript filename fo) s
        = [EAfter (LogAppend DEBUG (lit "No transcript to save"));
           EStdout DEBUG (lit "No transcript to save");
           EShowInfo (lit "Save Transcript") (lit "No transcript to save.")])
  /\
  (forall filename fo s e,
     In e (events (save_transcript filename fo) s) ->
     is_open_file e || is_file_write e = true ->
     truthy (strip (TkText.get_all (transcript_text (ui s)))) = true
     /\ truthy filename = true
     /\ (e = EOpenFile filename
         \/ e = EFileWrite filename
                  (strip (TkText.get_all (transcript_text (ui s)))))).
Proof.
  split.
  - intros filename fo s H. unfold_methods. cbn.
    rewrite (strip_get_all_space _ H). cbn. split; reflexivity.
  - intros filename fo s e Hin He. unfold_methods. cbn in Hin.
    destruct (truthy (strip (TkText.get_all (transcript_text (ui s)))));
      cbn in Hin.
    + destruct (truthy filename); cbn in Hin.
      * repeat split.
        destruct fo; cbn in Hin;
          repeat (destruct Hin as [Hin | Hin];
                  [subst e; cbn in He; try discriminate; auto |]);
          try contradiction.
      * repeat (destruct Hin as [Hin | Hin];
                [subst e; cbn in He; discriminate |]); contradiction.
    + repeat (destruct Hin as [Hin | Hin];
              [subst e; cbn in He; discriminate |]); contradiction.
Qed.


(* ================================================================== *)
(** ** Properties of the running application *)
(* ================================================================== *)

(** Case analysis on an enabled step [H : sys_step l s = Some s']. *)
Ltac step_cases H :=
  unfold sys_step in H;
  destruct (destroyed _) eqn:?; [discriminate H|];
  match type of H with
  | match ?l with _ => _ end = _ => destruct l
  end;
  repeat match type of H with
         | match ?x with _ => _ end = _ => destruct x eqn:?; try discriminate H
         end;
  injection H as H; subst.

Lemma run_app (l1 l2 : list Label) (s : Sys) :
  run (l1 ++ l2) s
  = match run l1 s with Some s1 => run l2 s1 | None => None end.
Proof.
  revert s. induction l1 as [|l r IH]; intros s; simpl; [reflexivity|].
  destruct (sys_step l s); [apply IH | reflexivity].
Qed.

(** An invariant of every step holds along every run. *)
Lemma run_invariant (P : Sys -> Prop) :
  (forall l s s', sys_step l s = Some s' -> P s -> P s') ->
  forall sched s s', run sched s = Some s' -> P s -> P s'.
Proof.
  intros Hstep sched. induction sched as [|l r IH]; intros s s' Hrun HP.
  - simpl in Hrun. injection Hrun as <-. exact HP.
  - simpl in Hrun. destruct (sys_step l s) as [s1|] eqn:E; [|discriminate].
    eapply IH; [exact Hrun|]. eapply Hstep; eauto.
Qed.

(** What one step does to the transcript widget. *)
Lemma step_transcript (l : Label) (s s' : Sys) :
  sys_step l s = Some s' ->
  transcript s' = transcript s
  \/ (l = RunCallback
      /\ exists text,
           hd_error (pending s) = Some (AddTranscriptImpl text)
           /\ exists suffix, transcript s' = transcript s ++ suffix)
  \/ (l = ClickClear /\ transcript s' = []).
Proof.
  intros H. step_cases H; unfold transcript.
  - left. unfold_methods. branches; reflexivity.
  - left. unfold_methods. branches; reflexivity.
  - left. unfold_methods. branches; reflexivity.
  - left. unfold_methods. branches; reflexivity.
  - right. right. split; reflexivity.
  - left. unfold_methods. branches; reflexivity.
  - match goal with c : Callback |- _ => destruct c end.
    + right. left. split; [reflexivity|]. eexists. split; [reflexivity|].
      unfold_methods. unfold TkText.insert_end. branches;
        eexists; try reflexivity. symmetry. apply app_nil_r.
    + left. reflexivity.
    + left. reflexivity.
    + left. reflexivity.
    + left. reflexivity.
  - left. unfold_methods.
    match goal with p : WPc |- _ => destruct p end; branches; reflexivity.
  - left. unfold_methods. branches; reflexivity.
Qed.

(** C1. The transcript buffer is append-only until cleared. A step of the
    application leaves the transcript widget as it is, or it is the queued
    [_add_transcript_impl] and the new content is the old one with text added
    at its end, or it is [clear_transcript] and the new content is empty.
    Hence along any run in which [clear_transcript] is not called, the
    content at the start is a prefix of the content at the end. *)
Theorem transcript_append_only_until_cleared :
  (forall l s s',
     sys_step l s = Some s' ->
     transcript s' = transcript s
     \/ (l = RunCallback
         /\ exists text,
              hd_error (pending s) = Some (AddTranscriptImpl text)
              /\ exists suffix, transcript s' = transcript s ++ suffix)
     \/ (l = ClickClear /\ transcript s' = []))
  /\
  (forall sched s s',
     run sched s = Some s' ->
     existsb is_click_clear sched = false ->
     exists suffix, transcript s' = transcript s ++ suffix).
Proof.
  split; [exact step_transcript|].
  induction sched as [|l r IH]; intros s s' Hrun Hclear.
  - simpl in Hrun. injection Hrun as <-. exists []. symmetry. apply app_nil_r.
  - simpl in Hrun, Hclear. apply orb_false_iff in Hclear.
    destruct Hclear as [Hl Hr].
    destruct (sys_step l s) as [s1|] eqn:E; [|discriminate].
    destruct (IH _ _ Hrun Hr) as [suf Hsuf].
    destruct (step_transcript _ _ _ E) as [H1 | [(_ & _ & _ & suf1 & H1) | [-> _]]].
    + exists suf. rewrite Hsuf, H1. reflexivity.
    + exists (suf1 ++ suf). rewrite Hsuf, H1. symmetry. apply app_assoc.
    + discriminate Hl.
Qed.

(** Only a successful [check_model] makes [start_possible] true. *)
Lemma step_start_possible (l : Label) (s s' : Sys) :
  sys_step l s = Some s' ->
  start_possible s' ->
  start_possible s \/ is_model_loaded l = true.
Proof.
  unfold start_possible. intros H.
  step_cases H; unfold_methods;
    try match goal with p : WPc |- _ => destruct p end;
    try match goal with c : Callback |- _ => destruct c end;
    try match goal with H : enabled ?b = true |- _ =>
          destruct b eqn:?; [clear H | discriminate H] end;
    branches; intros [Hs | Hl]; cbn in *;
    try discriminate; try congruence; auto.
Qed.

(** A model stays loaded, and a successful [check_model] loads one. *)
Lemma step_model (l : Label) (s s' : Sys) :
  sys_step l s = Some s' ->
  (model (app s') = model (app s) /\ is_model_loaded l = false)
  \/ (model (app s') <> None /\ is_model_loaded l = true).
Proof.
  intros H.
  step_cases H; unfold_methods;
    try match goal with p : WPc |- _ => destruct p end;
    try match goal with c : Callback |- _ => destruct c end;
    branches; auto; right; split; [discriminate | reflexivity].
Qed.

Lemma run_start_possible (sched : list Label) :
  forall s s',
    run sched s = Some s' ->
    start_possible s' ->
    (start_possible s /\ model (app s') = model (app s))
    \/ (existsb is_model_loaded sched = true /\ model (app s') <> None).
Proof.
  induction sched as [|l r IH] using rev_ind; intros s s' Hrun HP.
  - simpl in Hrun. injection Hrun as <-. left. split; [exact HP | reflexivity].
  - rewrite run_app in Hrun.
    destruct (run r s) as [s1|] eqn:E; [|discriminate].
    simpl in Hrun. destruct (sys_step l s1) as [s2|] eqn:E2; [|discriminate].
    injection Hrun as <-. rewrite existsb_app. simpl. rewrite orb_false_r.
    destruct (step_model _ _ _ E2) as [[Hm Hl] | [Hm Hl]].
    + destruct (step_start_possible _ _ _ E2 HP) as [HP1 | Hl'];
        [| congruence].
      destruct (IH _ _ E HP1) as [[H0 Hm0] | [Hex Hm0]].
      * left. split; [exact H0 | congruence].
      * right. rewrite Hex. split; [reflexivity | congruence].
    + right. rewrite Hl, orb_true_r. split; [reflexivity | exact Hm].
Qed.

(** C4. The start button is [DISABLED] when the application starts, and in
    every state the application can reach it is [NORMAL] only if a
    [check_model] call before found the path and constructed the [Model]
    (which the object then still holds). *)
Theorem start_disabled_until_model_loads :
  forall cwd_model,
    start_button (ui (app (init_sys cwd_model))) = DISABLED
    /\ forall sched s,
         run sched (init_sys cwd_model) = Some s ->
         start_button (ui (app s)) = NORMAL ->
         existsb is_model_loaded sched = true /\ model (app s) <> None.
Proof.
  intros cwd_model. split; [reflexivity|].
  intros sched s Hrun Hn.
  destruct (run_start_possible _ _ _ Hrun (or_introl Hn)) as [[H0 _] | H];
    [| exact H].
  destruct H0 as [H0 | H0]; discriminate H0.
Qed.

Lemma step_audio_ok (l : Label) (s s' : Sys) :
  sys_step l s = Some s' -> audio_ok s -> audio_ok s'.
Proof.
  unfold audio_ok, audio_state_ok. intros H [Htr [Hrec Hst]].
  step_cases H; unfold_methods;
    try match goal with p : WPc |- _ => destruct p end;
    try match goal with c : Callback |- _ => destruct c end;
    branches;
    (split;
     [ apply Forall_app; split; [exact Htr | repeat constructor]
     | split; intros x Hx; cbn in *;
       first [ injection Hx as <-; reflexivity
             | apply Hrec; congruence
             | apply Hst; congruence
             | congruence ] ]).
Qed.

(** *** Threads and their reads *)

Lemma reads_by_app (tid : nat) (tr : list (Actor * Event)) (who : Actor)
      (evs : list Event) :
  reads_by tid (tr ++ map (pair who) evs)
  = reads_by tid tr + reads_of who tid evs.
Proof.
  unfold reads_by. rewrite filter_app, length_app. f_equal.
  unfold reads_of, count. destruct who as [|t].
  - induction evs as [|e r IH]; simpl; [reflexivity | exact IH].
  - destruct (Nat.eqb t tid) eqn:E.
    + induction evs as [|e r IH]; simpl; [reflexivity|].
      unfold by_worker at 1. simpl. rewrite E. simpl.
      destruct (is_read e); simpl; [f_equal|]; exact IH.
    + induction evs as [|e r IH]; simpl; [reflexivity|].
      unfold by_worker at 1. simpl. rewrite E. simpl. exact IH.
Qed.

Lemma nth_error_set_nth_same {A : Type} (l : list A) :
  forall n x y, nth_error l n = Some x -> nth_error (set_nth n y l) n = Some y.
Proof.
  induction l as [|a r IH]; intros [|n] x y H; simpl in *;
    try discriminate; [reflexivity | eapply IH; exact H].
Qed.

Lemma nth_error_set_nth_other {A : Type} (l : list A) :
  forall n m y, n <> m -> nth_error (set_nth n y l) m = nth_error l m.
Proof.
  induction l as [|a r IH]; intros [|n] [|m] y H; simpl;
    try reflexivity; [congruence | apply IH; congruence].
Qed.

Lemma nth_error_nth {A : Type} (l : list A) (n : nat) (d : A) :
  nth n l d = match nth_error l n with Some x => x | None => d end.
Proof.
  revert n. induction l as [|a r IH]; intros [|n]; simpl;
    try reflexivity. apply IH.
Qed.

Lemma pc_of_nth_error (tid : nat) (s : Sys) :
  pc_of tid s
  = match nth_error (workers s) tid with Some pc => pc | None => WDone end.
Proof. apply nth_error_nth. Qed.

Ltac quiet_tac :=
  let s := fresh "s" in
  let H := fresh "H" in
  intros s H; unfold_methods; branches; cbn; auto; congruence.

Lemma quiet_browse d : quiet (browse_model d).
Proof. quiet_tac. Qed.
Lemma quiet_check ex ld : quiet (check_model ex ld).
Proof. quiet_tac. Qed.
Lemma quiet_stop o : quiet (stop_listening o).
Proof. quiet_tac. Qed.
Lemma quiet_clear : quiet clear_transcript.
Proof. quiet_tac. Qed.
Lemma quiet_save f fo : quiet (save_transcript f fo).
Proof. quiet_tac. Qed.
Lemma quiet_callback cb : quiet (run_callback cb).
Proof. destruct cb; quiet_tac. Qed.
Lemma quiet_close o : quiet (on_closing o).
Proof. quiet_tac. Qed.

(** No method other than [start_listening] starts a thread. *)
Lemma spawned_worker o pc s : spawned (events (worker_step o pc) s) = [].
Proof. unfold_methods. destruct pc; branches; reflexivity. Qed.

(** A step of a thread once [is_listening] is false. *)
Lemma worker_step_not_listening o pc s :
  is_listening s = false ->
  is_done pc = false ->
  is_listening (exec (worker_step o pc) s) = false
  /\ rank (result (worker_step o pc) s) < rank pc
  /\ count is_read (events (worker_step o pc) s)
     + body_due (result (worker_step o pc) s)
     = body_due pc.
Proof.
  intros H Hd. unfold_methods.
  destruct pc; try discriminate Hd; cbn; try rewrite H; branches;
    repeat split; auto.
Qed.

Ltac sys_simpl :=
  unfold ui_run, pc_of;
  cbn [absorb with_pending with_workers app pending workers trace destroyed].

Lemma ui_run_not_listening (tid : nat) (m : M unit) (s : Sys) :
  quiet m ->
  is_listening (app s) = false ->
  is_listening (app (ui_run m s)) = false
  /\ pc_of tid (ui_run m s) = pc_of tid s
  /\ reads_by tid (trace (ui_run m s)) = reads_by tid (trace s).
Proof.
  intros Hq H. destruct (Hq _ H) as [H1 H2]. sys_simpl.
  rewrite H2, app_nil_r, reads_by_app. cbn. auto.
Qed.

(** One step of the application while [is_listening] is false and the step
    is not a click on the start button. *)
Lemma step_when_not_listening (tid : nat) (l : Label) (s s' : Sys) :
  sys_step l s = Some s' ->
  is_listening (app s) = false ->
  is_click_start l = false ->
  is_listening (app s') = false
  /\ (if is_worker_step tid l
      then rank (pc_of tid s') < rank (pc_of tid s)
           /\ reads_by tid (trace s') + body_due (pc_of tid s')
              = reads_by tid (trace s) + body_due (pc_of tid s)
      else pc_of tid s' = pc_of tid s
           /\ reads_by tid (trace s') = reads_by tid (trace s)).
Proof.
  intros H Hl Hc. step_cases H; try discriminate Hc; cbn [is_worker_step].
  - apply ui_run_not_listening; [apply quiet_browse | exact Hl].
  - apply ui_run_not_listening; [apply quiet_check | exact Hl].
  - apply ui_run_not_listening; [apply quiet_stop | exact Hl].
  - apply ui_run_not_listening; [apply quiet_clear | exact Hl].
  - apply ui_run_not_listening; [apply quiet_save | exact Hl].
  - apply (ui_run_not_listening tid _ (with_pending _ s));
      [apply quiet_callback | exact Hl].
  - match goal with
    | E : nth_error (workers s) ?t = Some ?p, D : is_done ?p = false |- _ =>
        rename t into tid0; rename p into pc; rename E into Hpc;
        rename D into Hnd
    end.
    destruct (worker_step_not_listening o pc (app s) Hl Hnd)
      as (H1 & H2 & H3).
    split; [exact H1|].
    rewrite !pc_of_nth_error.
    cbn [absorb with_pending with_workers app pending workers trace].
    rewrite spawned_worker, app_nil_r, reads_by_app. cbn [reads_of].
    destruct (Nat.eqb_spec tid0 tid) as [->|Hne].
    + rewrite (nth_error_set_nth_same _ _ _ _ Hpc), Hpc.
      split; [exact H2|]. rewrite <- H3. rewrite Nat.add_assoc. reflexivity.
    + rewrite (nth_error_set_nth_other _ _ _ _ Hne). split; [reflexivity|].
      apply Nat.add_0_r.
  - apply ui_run_not_listening; [apply quiet_close | exact Hl].
Qed.

Lemma rank_le_2 (pc : WPc) : rank pc <= 2.
Proof. destruct pc; simpl; lia. Qed.

Lemma body_due_le_1 (pc : WPc) : body_due pc <= 1.
Proof. destruct pc; simpl; lia. Qed.

Lemma rank_0_done (pc : WPc) : rank pc = 0 -> pc = WDone.
Proof. destruct pc; simpl; intros H; try discriminate H; reflexivity. Qed.

Lemma run_when_not_listening (tid : nat) (sched : list Label) :
  forall s s',
    run sched s = Some s' ->
    is_listening (app s) = false ->
    existsb is_click_start sched = false ->
    is_listening (app s') = false
    /\ count_steps tid sched + rank (pc_of tid s') <= rank (pc_of tid s)
    /\ reads_by tid (trace s') + body_due (pc_of tid s')
       = reads_by tid (trace s) + body_due (pc_of tid s).
Proof.
  induction sched as [|l r IH]; intros s s' Hrun Hl Hc.
  - simpl in Hrun. injection Hrun as <-. cbn. auto.
  - simpl in Hrun, Hc. apply orb_false_iff in Hc. destruct Hc as [Hc1 Hc2].
    destruct (sys_step l s) as [s1|] eqn:E; [|discriminate].
    destruct (step_when_not_listening tid _ _ _ E Hl Hc1) as [Hl1 Hstep].
    destruct (IH _ _ Hrun Hl1 Hc2) as (Hl' & Hrank & Hreads).
    split; [exact Hl'|]. unfold count_steps in *. simpl.
    destruct (is_worker_step tid l); simpl.
    + destruct Hstep as [Hr Hd]. split; lia.
    + destruct Hstep as [Hp Hd]. rewrite <- Hp, <- Hd. split; assumption.
Qed.

(** A thread that has left [recognize_speech] takes no step and reads
    nothing, whatever happens afterwards. *)
Lemma step_after_exit (tid : nat) (l : Label) (s s' : Sys) :
  sys_step l s = Some s' ->
  nth_error (workers s) tid = Some WDone ->
  nth_error (workers s') tid = Some WDone
  /\ reads_by tid (trace s') = reads_by tid (trace s)
  /\ is_worker_step tid l = false.
Proof.
  intros H Hd.
  assert (Hlt : tid < List.length (workers s))
    by (apply nth_error_Some; congruence).
  step_cases H; sys_simpl; rewrite reads_by_app; cbn [reads_of is_worker_step];
    try (rewrite nth_error_app1 by exact Hlt;
         repeat split; [exact Hd | apply Nat.add_0_r]).
  match goal with
  | E : nth_error (workers s) ?t = Some ?p, D : is_done ?p = false |- _ =>
      rename t into tid0; rename p into pc; rename E into Hpc;
      rename D into Hnd
  end.
  destruct (Nat.eqb_spec tid0 tid) as [->|Hne].
  - rewrite Hd in Hpc. injection Hpc as <-. discriminate Hnd.
  - rewrite spawned_worker, app_nil_r, (nth_error_set_nth_other _ _ _ _ Hne).
    repeat split; [exact Hd | apply Nat.add_0_r].
Qed.

Lemma run_after_exit (tid : nat) (sched : list Label) :
  forall s s',
    nth_error (workers s) tid = Some WDone ->
    run sched s = Some s' ->
    nth_error (workers s') tid = Some WDone
    /\ reads_by tid (trace s') = reads_by tid (trace s)
    /\ count_steps tid sched = 0.
Proof.
  induction sched as [|l r IH]; intros s s' Hd Hrun.
  - simpl in Hrun. injection Hrun as <-. auto.
  - simpl in Hrun. destruct (sys_step l s) as [s1|] eqn:E; [|discriminate].
    destruct (step_after_exit tid _ _ _ E Hd) as (Hd1 & Hr1 & Hw).
    destruct (IH _ _ Hd1 Hrun) as (Hd' & Hr' & Hc).
    unfold count_steps in *. simpl. rewrite Hw.
    repeat split; [exact Hd' | congruence | exact Hc].
Qed.

(** *** Cancellation *)

(** C2, as stated, fails: with thread 0 inside the loop, [stop_listening]
    sets [is_listening] to false; [start_listening] sets it back to true
    before the thread has tested it. The thread's read fails on the closed
    stream, its handler finds the flag true, and it reads twice more: three
    passes through the loop body after the flag was set to false, and the
    thread is still in the loop. *)
Lemma restart_revives_cancelled_thread :
  option_map observe (run sched_listening sample_init)
  = Some (true, WBody, 0)
  /\ option_map observe
       (run (sched_listening ++ [ClickStop CloseOk]) sample_init)
     = Some (false, WBody, 0)
  /\ option_map observe
       (run (sched_listening ++ [ClickStop CloseOk] ++ sched_restart)
          sample_init)
     = Some (true, WBody, 3).
Proof. repeat split; vm_compute; reflexivity. Qed.

(** C2 (amended). Cancellation is the flag [is_listening], tested at the
    head of each loop iteration and in the loop's exception handler. Once
    it is false, and as long as [start_listening] is not called again, a
    thread in [recognize_speech] reads at most one more chunk (the pass
    through the body it had already begun) and has left the function after
    at most two more steps, none of which can be refused. A thread that has
    left takes no further step and reads no further chunk, whatever happens
    afterwards. *)
Theorem cancellation_by_flag :
  (forall tid sched s s',
     is_listening (app s) = false ->
     existsb is_click_start sched = false ->
     run sched s = Some s' ->
     is_listening (app s') = false
     /\ reads_by tid (trace s') <= reads_by tid (trace s) + 1
     /\ count_steps tid sched <= 2
     /\ (count_steps tid sched = 2 -> pc_of tid s' = WDone))
  /\
  (forall tid o s pc,
     destroyed s = false ->
     nth_error (workers s) tid = Some pc ->
     is_done pc = false ->
     exists s', sys_step (WorkerStep tid o) s = Some s')
  /\
  (forall tid sched s s',
     nth_error (workers s) tid = Some WDone ->
     run sched s = Some s' ->
     nth_error (workers s') tid = Some WDone
     /\ reads_by tid (trace s') = reads_by tid (trace s)
     /\ count_steps tid sched = 0).
Proof.
  split; [| split].
  - intros tid sched s s' Hl Hc Hrun.
    destruct (run_when_not_listening tid sched _ _ Hrun Hl Hc)
      as (Hl' & Hrank & Hreads).
    pose proof (rank_le_2 (pc_of tid s)) as R.
    pose proof (body_due_le_1 (pc_of tid s)) as B.
    split; [exact Hl'|]. split; [lia|]. split; [lia|].
    intros H2. apply rank_0_done. lia.
  - intros tid o s pc Hd Hpc Hnd. unfold sys_step.
    rewrite Hd, Hpc, Hnd. eexists. reflexivity.
  - intros tid sched s s' Hd Hrun. exact (run_after_exit tid sched _ _ Hd Hrun).
Qed.

(** *** Errors *)

(** C3, as stated, fails in the recognition thread. While listening, a read
    that raises is logged and nothing else: no dialog is shown, and the
    thread goes round the loop and reads again. When the microphone cannot
    be opened the thread logs the error and queues a closure that calls
    [update_status] with [Error]; no dialog is shown either. *)
Lemma recognition_errors_have_no_dialog :
  new_events sched_read_error (after sched_listening sample_init)
  = Some [(Worker 0, EStreamRead 4000 false);
          (Worker 0,
           EAfter (LogAppend ERROR
                     (lit "Error in recognition loop: Stream closed")));
          (Worker 0,
           EStdout ERROR (lit "Error in recognition loop: Stream closed"));
          (Worker 0, EStreamRead 4000 false);
          (Worker 0,
           EAfter (LogAppend ERROR
                     (lit "Error in recognition loop: Stream closed")));
          (Worker 0,
           EStdout ERROR (lit "Error in recognition loop: Stream closed"))]
  /\ option_map
       (fun s => filter (fun ae => match fst ae with
                                   | Worker _ => true
                                   | UIThread => false
                                   end) (trace s))
       (run sched_open_error sample_init)
     = Some [(Worker 0,
              EAfter (LogAppend DEBUG
                        (lit "Starting speech recognition thread")));
             (Worker 0,
              EStdout DEBUG (lit "Starting speech recognition thread"));
             (Worker 0, EStreamOpen microphone);
             (Worker 0,
              EAfter (LogAppend ERROR
                (lit "Error in speech recognition thread: Device unavailable")));
             (Worker 0,
              EStdout ERROR
                (lit "Error in speech recognition thread: Device unavailable"));
             (Worker 0, EAfter (UpdateStatus (lit "Error") (lit "red")))].
Proof. split; vm_compute; reflexivity. Qed.

Ltac in_list := cbn; solve [repeat (first [left; reflexivity | right])].

(** C3 (amended). In [check_model], [start_listening] and
    [save_transcript] an error (missing model path, failure to load the
    model, failure to set up audio, recognizer or thread, failure to open or
    write the file) is caught where it occurs, logged and shown in a modal
    error box, and the failed call is not made again. In the recognition
    thread an error is caught and logged, and no dialog is shown: if the
    microphone cannot be opened, [is_listening] is cleared, a closure that
    calls [update_status] with [Error] is queued and the thread ends; an
    error inside the loop is
    handled by leaving the loop when [is_listening] is false and by going on
    with the next pass otherwise. *)
Theorem errors_caught_logged_not_retried :
  (forall ld s,
     let p := model_path_var (ui s) in
     reported (lit "Model path does not exist: " ++ p)
       (lit "Model Error") (lit "Model directory not found: " ++ p)
       (events (check_model false ld) s)
     /\ count is_model_load (events (check_model false ld) s) = 0
     /\ exec (check_model false ld) s = s)
  /\
  (forall e s,
     reported (lit "Error loading Vosk model: " ++ e)
       (lit "Model Error") (lit "Failed to load Vosk model: " ++ e)
       (events (check_model true (Raises e)) s)
     /\ count is_model_load (events (check_model true (Raises e)) s) = 1
     /\ exec (check_model true (Raises e)) s = s)
  /\
  (forall tid o e s,
     is_listening s = false ->
     start_error o = Some e ->
     reported (lit "Error starting speech recognition: " ++ e)
       (lit "Start Error") (lit "Failed to start speech recognition: " ++ e)
       (events (start_listening tid o) s)
     /\ count is_audio_init (events (start_listening tid o) s) = 1
     /\ count is_recognizer_new (events (start_listening tid o) s) <= 1
     /\ count is_thread_start (events (start_listening tid o) s) = 0
     /\ is_listening (exec (start_listening tid o) s) = false
     /\ ui (exec (start_listening tid o) s) = ui s)
  /\
  (forall filename fo e s,
     truthy (strip (TkText.get_all (transcript_text (ui s)))) = true ->
     truthy filename = true ->
     file_error fo = Some e ->
     reported (lit "Error saving transcript: " ++ e)
       (lit "Save Error") (lit "Failed to save transcript: " ++ e)
       (events (save_transcript filename fo) s)
     /\ count is_open_file (events (save_transcript filename fo) s) = 1
     /\ count is_file_write (events (save_transcript filename fo) s) <= 1
     /\ exec (save_transcript filename fo) s = s)
  /\
  (forall o e s,
     open_error (open_outcome o) = Some e ->
     audio s <> None ->
     logged_only (lit "Error in speech recognition thread: " ++ e)
       (events (worker_step o WStart) s)
     /\ In (EAfter (UpdateStatus (lit "Error") (lit "red")))
          (events (worker_step o WStart) s)
     /\ count is_stream_open (events (worker_step o WStart) s) = 1
     /\ is_listening (exec (worker_step o WStart) s) = false
     /\ result (worker_step o WStart) s = WDone)
  /\
  (forall oo e s,
     result (worker_step (mkWorkerOracle oo (ReadRaises e)) WBody) s
     = WHandler e
     /\ result (worker_step (mkWorkerOracle oo (RecognitionRaises e)) WBody) s
        = WHandler e)
  /\
  (forall o e s,
     logged_only (lit "Error in recognition loop: " ++ e)
       (events (worker_step o (WHandler e)) s)
     /\ exec (worker_step o (WHandler e)) s = s
     /\ result (worker_step o (WHandler e)) s
        = if is_listening s then WHead else WDone).
Proof.
  unfold reported, logged_only, count. repeat split.
  all: try (unfold_methods; cbn; first [reflexivity | in_list]).
  all: intros.
  - unfold_methods; cbn; rewrite H; destruct o; try discriminate;
      injection H0 as <-; in_list.
  - unfold_methods; cbn; rewrite H; destruct o; try discriminate;
      injection H0 as <-; in_list.
  - unfold_methods; cbn; rewrite H; destruct o; try discriminate;
      injection H0 as <-; in_list.
  - unfold_methods; cbn; rewrite H; destruct o; try discriminate; reflexivity.
  - unfold_methods; cbn; rewrite H; destruct o; try discriminate; cbn; lia.
  - unfold_methods; cbn; rewrite H; destruct o; try discriminate; reflexivity.
  - unfold_methods; cbn; rewrite H; destruct o; try discriminate; reflexivity.
  - unfold_methods; cbn; rewrite H; destruct o; try discriminate; reflexivity.
  - unfold_methods; cbn; rewrite H, H0; destruct fo; try discriminate;
      injection H1 as <-; in_list.
  - unfold_methods; cbn; rewrite H, H0; destruct fo; try discriminate;
      injection H1 as <-; in_list.
  - unfold_methods; cbn; rewrite H, H0; destruct fo; try discriminate;
      injection H1 as <-; in_list.
  - unfold_methods; cbn; rewrite H, H0; destruct fo; try discriminate;
      reflexivity.
  - unfold_methods; cbn; rewrite H, H0; destruct fo; try discriminate;
      cbn; lia.
  - unfold_methods; cbn; rewrite H, H0; destruct fo; try discriminate;
      reflexivity.
  - unfold_methods; cbn; destruct (audio s); [|congruence];
      destruct (open_outcome o); try discriminate; injection H as <-; in_list.
  - unfold_methods; cbn; destruct (audio s); [|congruence];
      destruct (open_outcome o); try discriminate; injection H as <-; in_list.
  - unfold_methods; cbn; destruct (audio s); [|congruence];
      destruct (open_outcome o); try discriminate; reflexivity.
  - unfold_methods; cbn; destruct (audio s); [|congruence];
      destruct (open_outcome o); try discriminate; injection H as <-; in_list.
  - unfold_methods; cbn; destruct (audio s); [|congruence];
      destruct (open_outcome o); try discriminate; reflexivity.
  - unfold_methods; cbn; destruct (audio s); [|congruence];
      destruct (open_outcome o); try discriminate; reflexivity.
  - unfold_methods; cbn; destruct (audio s); [|congruence];
      destruct (open_outcome o); try discriminate; reflexivity.
  - unfold_methods; cbn; destruct (is_listening s); in_list.
  - unfold_methods; cbn; destruct (is_listening s); in_list.
  - unfold_methods; cbn; destruct (is_listening s); reflexivity.
  - unfold_methods; cbn; destruct (is_listening s); reflexivity.
  - unfold_methods; cbn; destruct (is_listening s); reflexivity.
Qed.

(** Turns [enabled b = true] into [b = NORMAL]. *)
Ltac gate :=
  repeat match goal with
         | H : enabled ?b = true |- _ =>
             destruct b eqn:?; [clear H | discriminate H]
         end.

(** Uses an implication whose premise follows by congruence. *)
Ltac forward H :=
  match type of H with
  | ?P -> _ =>
      let X := fresh in
      assert (X : P) by congruence; specialize (H X)
  end.

Lemma step_controls_ok (l : Label) (s s' : Sys) :
  sys_step l s = Some s' -> controls_ok (app s) -> controls_ok (app s').
Proof.
  unfold controls_ok. intros H (H1 & H2 & H3).
  step_cases H; gate; unfold_methods;
    try match goal with p : WPc |- _ => destruct p end;
    try match goal with c : Callback |- _ => destruct c end;
    branches; cbn in *;
    repeat split; intros;
    try discriminate; try congruence;
    try forward H2; try forward H1; try forward H3;
    intuition congruence.
Qed.

Lemma reachable_controls_ok (s : Sys) : reachable s -> controls_ok (app s).
Proof.
  intros (cwd_model & sched & Hrun).
  eapply (run_invariant (fun s => controls_ok (app s)) step_controls_ok);
    [exact Hrun|].
  unfold controls_ok. cbn. repeat split; intros; discriminate.
Qed.

(** *** The microphone and the recognizer *)

Ltac spawn_tac :=
  let a := fresh "a" in
  intros a; unfold_methods; branches;
  first [left; reflexivity | right; eexists; in_list].

Lemma spawn_ok_browse d : spawn_ok (browse_model d).
Proof. spawn_tac. Qed.
Lemma spawn_ok_check ex ld : spawn_ok (check_model ex ld).
Proof. spawn_tac. Qed.
Lemma spawn_ok_start tid o : spawn_ok (start_listening tid o).
Proof. spawn_tac. Qed.
Lemma spawn_ok_stop o : spawn_ok (stop_listening o).
Proof. spawn_tac. Qed.
Lemma spawn_ok_clear : spawn_ok clear_transcript.
Proof. spawn_tac. Qed.
Lemma spawn_ok_save f fo : spawn_ok (save_transcript f fo).
Proof. spawn_tac. Qed.
Lemma spawn_ok_callback cb : spawn_ok (run_callback cb).
Proof. destruct cb; spawn_tac. Qed.
Lemma spawn_ok_close o : spawn_ok (on_closing o).
Proof. spawn_tac. Qed.

Lemma in_loop_spawned (l : list WPc) (evs : list Event) (tid : nat) :
  in_loop (nth tid (l ++ spawned evs) WDone) = true ->
  in_loop (nth tid l WDone) = true.
Proof.
  destruct (Nat.lt_ge_cases tid (List.length l)) as [Hlt | Hge].
  - rewrite app_nth1 by exact Hlt. auto.
  - rewrite app_nth2 by exact Hge.
    generalize (tid - List.length l). intros n.
    assert (H : in_loop (nth n (spawned evs) WDone) = false).
    { revert n. induction evs as [|e r IH]; intros n; simpl.
      - destruct n; reflexivity.
      - destruct e; try apply IH. destruct n; simpl; [reflexivity | apply IH]. }
    rewrite H. discriminate.
Qed.

Lemma in_pair_other (tid : nat) (e : Event) (evs : list Event) :
  ~ In (Worker tid, e) (map (pair UIThread) evs).
Proof.
  intros H. apply in_map_iff in H. destruct H as (x & Hx & _). discriminate Hx.
Qed.

Lemma in_pair_worker (tid tid0 : nat) (e : Event) (evs : list Event) :
  In (Worker tid, e) (map (pair (Worker tid0)) evs) -> tid = tid0 /\ In e evs.
Proof.
  intros H. apply in_map_iff in H. destruct H as (x & Hx & Hin).
  injection Hx as <- <-. auto.
Qed.

Lemma ui_run_opened_ok (m : M unit) (s : Sys) :
  spawn_ok m -> opened_ok s -> opened_ok (ui_run m s).
Proof.
  intros Hm (H1 & H2 & H3). unfold opened_ok. sys_simpl.
  split; [| split].
  - intros tid Hl. apply in_or_app. left. apply H1.
    exact (in_loop_spawned _ _ _ Hl).
  - intros tid frames b Hin. apply in_app_or in Hin.
    destruct Hin as [Hin | Hin]; [| destruct (in_pair_other _ _ _ Hin)].
    apply in_or_app. left. exact (H2 _ _ _ Hin).
  - intros Hw. destruct (workers s) as [|w0 ws] eqn:Ew.
    + destruct (Hm (app s)) as [Hs | (mm & Hmm)].
      * rewrite Hs in Hw. destruct Hw. reflexivity.
      * exists mm. apply in_or_app. right.
        apply in_map_iff. exists (ERecognizerNew mm 16000). auto.
    + destruct H3 as (mm & Hmm); [discriminate|].
      exists mm. apply in_or_app. left. exact Hmm.
Qed.

(** A thread enters the loop only by opening the microphone, and reads only
    in the loop body. *)
Lemma worker_step_opens (o : WorkerOracle) (pc : WPc) (a : App) :
  (in_loop (result (worker_step o pc) a) = true ->
   in_loop pc = true \/ In (EStreamOpen microphone) (events (worker_step o pc) a))
  /\ (forall frames b,
        In (EStreamRead frames b) (events (worker_step o pc) a) -> pc = WBody).
Proof.
  unfold_methods.
  destruct pc; branches;
    (split; [intros Hl | intros frames b Hin]); cbn in *;
    try discriminate; try reflexivity; auto;
    try (right; in_list);
    repeat (destruct Hin as [Hin | Hin]; [discriminate Hin |]);
    contradiction.
Qed.

Lemma set_nth_nil {A : Type} (n : nat) (x : A) (l : list A) :
  set_nth n x l = [] -> l = [].
Proof. destruct l, n; simpl; intros H; try reflexivity; discriminate H. Qed.

Lemma step_opened_ok (l : Label) (s s' : Sys) :
  sys_step l s = Some s' -> opened_ok s -> opened_ok s'.
Proof.
  intros H HI. step_cases H.
  - apply ui_run_opened_ok; [apply spawn_ok_browse | exact HI].
  - apply ui_run_opened_ok; [apply spawn_ok_check | exact HI].
  - apply ui_run_opened_ok; [apply spawn_ok_start | exact HI].
  - apply ui_run_opened_ok; [apply spawn_ok_stop | exact HI].
  - apply ui_run_opened_ok; [apply spawn_ok_clear | exact HI].
  - apply ui_run_opened_ok; [apply spawn_ok_save | exact HI].
  - apply (ui_run_opened_ok _ (with_pending _ s));
      [apply spawn_ok_callback | exact HI].
  - match goal with
    | E : nth_error (workers s) ?t = Some ?p, D : is_done ?p = false |- _ =>
        rename t into tid0; rename p into pc; rename E into Hpc;
        rename D into Hnd
    end.
    destruct HI as (H1 & H2 & H3).
    destruct (worker_step_opens o pc (app s)) as [Ho Hr].
    assert (Hpc0 : pc_of tid0 s = pc) by (rewrite pc_of_nth_error, Hpc; reflexivity).
    unfold opened_ok. rewrite !pc_of_nth_error in *.
    cbn [absorb with_pending with_workers app pending workers trace].
    rewrite spawned_worker, app_nil_r.
    split; [| split].
    + intros tid. rewrite pc_of_nth_error.
      cbn [absorb with_pending with_workers app pending workers trace].
      rewrite spawned_worker, app_nil_r.
      destruct (Nat.eq_dec tid0 tid) as [<- | Hne].
      * rewrite (nth_error_set_nth_same _ _ _ _ Hpc). intros Hl.
        destruct (Ho Hl) as [Hin | Hin].
        -- apply in_or_app. left. apply H1.
           rewrite pc_of_nth_error, Hpc. exact Hin.
        -- apply in_or_app. right. apply in_map. exact Hin.
      * rewrite (nth_error_set_nth_other _ _ _ _ Hne). intros Hl.
        apply in_or_app. left. apply H1. rewrite pc_of_nth_error. exact Hl.
    + intros tid frames b Hin. apply in_app_or in Hin.
      destruct Hin as [Hin | Hin].
      * apply in_or_app. left. exact (H2 _ _ _ Hin).
      * apply in_pair_worker in Hin. destruct Hin as [-> Hin].
        apply in_or_app. left. apply H1.
        rewrite pc_of_nth_error, Hpc, (Hr _ _ Hin). reflexivity.
    + intros Hw. destruct H3 as (mm & Hmm).
      * intros E. apply Hw. rewrite E. destruct tid0; reflexivity.
      * exists mm. apply in_or_app. left. exact Hmm.
  - apply ui_run_opened_ok; [apply spawn_ok_close | exact HI].
Qed.

Lemma reachable_opened_ok (s : Sys) : reachable s -> opened_ok s.
Proof.
  intros (cwd_model & sched & Hrun).
  eapply (run_invariant opened_ok step_opened_ok); [exact Hrun|].
  unfold opened_ok. cbn. repeat split.
  - intros tid. destruct tid; discriminate.
  - intros tid frames b Hin.
    repeat (destruct Hin as [Hin | Hin]; [discriminate Hin |]).
    contradiction.
  - intros H. destruct H. reflexivity.
Qed.

(** C8. The audio-capture device is opened as a mono 16 kHz PCM stream and
    the recognizer is constructed with the matching rate. In every state the
    application can reach: every [PyAudio.open] made so far has format
    [paInt16], one channel and rate 16000, for input, and every recognizer
    was constructed with the rate 16000, so the two rates agree; the stream
    and the recognizer the object holds have these parameters; every thread
    that is inside the recognition loop, and every thread that has read a
    chunk, has opened the microphone with exactly these arguments; if any
    thread was started a recognizer was constructed before; and while
    [is_listening] is true the recognizer in use is the one built at 16000
    Hz from the loaded model. The calls are made: [recognize_speech] with
    the PyAudio object in place opens the microphone exactly once, with these
    arguments, and [start_listening] from a state that is not listening
    constructs the recognizer at 16000 Hz before it starts the thread. *)
Theorem microphone_mono_16khz_pcm :
  (format microphone = paInt16 /\ channels microphone = 1%Z
   /\ rate microphone = 16000%Z /\ input microphone = true)
  /\
  (forall s,
     reachable s ->
     Forall (fun ae => audio_params_ok (snd ae)) (trace s)
     /\ (forall who who' cfg m sample_rate,
           In (who, EStreamOpen cfg) (trace s) ->
           In (who', ERecognizerNew m sample_rate) (trace s) ->
           rate cfg = sample_rate)
     /\ audio_state_ok (app s)
     /\ opened_ok s
     /\ (is_listening (app s) = true ->
         recognizer (app s) = Some (mkRecognizer (model (app s)) 16000)))
  /\
  (forall o a,
     audio a <> None ->
     In (EStreamOpen microphone) (events (worker_step o WStart) a)
     /\ count is_stream_open (events (worker_step o WStart) a) = 1)
  /\
  (forall tid o a,
     is_listening a = false ->
     start_error o = None ->
     events (start_listening tid o) a
     = events (logger DEBUG (lit "Starting speech recognition")) a
       ++ [EAfter (UpdateStatusImpl (lit "Listening...") (lit "green"));
           EPyAudioInit; ERecognizerNew (model a) 16000; EThreadStart tid]
       ++ events (logger INFO (lit "Speech recognition started")) a
     /\ recognizer (exec (start_listening tid o) a)
        = Some (mkRecognizer (model a) 16000)).
Proof.
  split; [repeat split|]. split; [| split].
  - intros s R. pose proof R as (cwd_model & sched & Hrun).
    assert (Hok : audio_ok s).
    { eapply (run_invariant audio_ok step_audio_ok); [exact Hrun|].
      split; [cbn; repeat constructor|].
      split; intros x Hx; discriminate Hx. }
    destruct Hok as [Htr Hst]. split; [exact Htr|]. split; [| split; [exact Hst|]].
    + intros who who' cfg m sample_rate Ho Hr.
      rewrite Forall_forall in Htr.
      pose proof (Htr _ Ho) as (_ & _ & H1 & _). pose proof (Htr _ Hr) as H2.
      cbn in H1, H2. congruence.
    + split; [exact (reachable_opened_ok s R)|].
      intros Hl. destruct (reachable_controls_ok s R) as (_ & H2 & _).
      destruct (H2 Hl) as (_ & _ & Hrec & _). exact Hrec.
  - intros o a Ha. unfold count. unfold_methods. cbn.
    destruct (audio a); [| congruence].
    destruct (open_outcome o); cbn; split; first [in_list | reflexivity].
  - intros tid o a Hl Ho. destruct o; try discriminate Ho.
    unfold_methods. cbn. rewrite Hl. cbn. split; reflexivity.
Qed.

(* ================================================================== *)
(** ** The theorems on the sample runs *)
(* ================================================================== *)

(** The queued closure adds [hello world] at the end of the transcript. *)
Lemma transcript_append_only_sample :
  sys_step RunCallback heard_sys = Some (after [RunCallback] heard_sys)
  /\ (transcript (after [RunCallback] heard_sys) = transcript heard_sys
      \/ (RunCallback = RunCallback
          /\ exists text,
               hd_error (pending heard_sys) = Some (AddTranscriptImpl text)
               /\ exists suffix,
                    transcript (after [RunCallback] heard_sys)
                    = transcript heard_sys ++ suffix)
      \/ (RunCallback = ClickClear
          /\ transcript (after [RunCallback] heard_sys) = [])).
Proof.
  split; [vm_compute; reflexivity|].
  apply (proj1 transcript_append_only_until_cleared RunCallback heard_sys).
  vm_compute; reflexivity.
Defined.

(** After the stop, thread 0 reads once more and leaves in two steps. *)
Lemma cancellation_sample :
  (is_listening (app stopped_sys) = false
   /\ existsb is_click_start sched_wind_down = false
   /\ run sched_wind_down stopped_sys
      = Some (after sched_wind_down stopped_sys))
  /\ (is_listening (app (after sched_wind_down stopped_sys)) = false
      /\ reads_by 0 (trace (after sched_wind_down stopped_sys))
         <= reads_by 0 (trace stopped_sys) + 1
      /\ count_steps 0 sched_wind_down <= 2
      /\ (count_steps 0 sched_wind_down = 2 ->
          pc_of 0 (after sched_wind_down stopped_sys) = WDone)).
Proof.
  split; [repeat split; vm_compute; reflexivity|].
  apply (proj1 cancellation_by_flag 0 sched_wind_down stopped_sys);
    vm_compute; reflexivity.
Defined.

(** No audio device when start is clicked. *)
Lemma start_error_sample :
  (is_listening (app stopped_sys) = false
   /\ start_error no_audio_device
      = Some (lit "No Default Input Device Available"))
  /\ (reported
        (lit "Error starting speech recognition: "
           ++ lit "No Default Input Device Available")
        (lit "Start Error")
        (lit "Failed to start speech recognition: "
           ++ lit "No Default Input Device Available")
        (events (start_listening 1 no_audio_device) (app stopped_sys))
      /\ count is_audio_init
           (events (start_listening 1 no_audio_device) (app stopped_sys)) = 1
      /\ count is_recognizer_new
           (events (start_listening 1 no_audio_device) (app stopped_sys)) <= 1
      /\ count is_thread_start
           (events (start_listening 1 no_audio_device) (app stopped_sys)) = 0
      /\ is_listening
           (exec (start_listening 1 no_audio_device) (app stopped_sys)) = false
      /\ ui (exec (start_listening 1 no_audio_device) (app stopped_sys))
         = ui (app stopped_sys)).
Proof.
  split; [split; vm_compute; reflexivity|].
  apply (proj1 (proj2 (proj2 errors_caught_logged_not_retried))
           1 no_audio_device (lit "No Default Input Device Available")
           (app stopped_sys));
    vm_compute; reflexivity.
Defined.

(** Loading the model enables the start button. *)
Lemma start_enabled_sample :
  (run [ClickCheckModel true Ok] sample_init
   = Some (after [ClickCheckModel true Ok] sample_init)
   /\ start_button (ui (app (after [ClickCheckModel true Ok] sample_init)))
      = NORMAL)
  /\ (existsb is_model_loaded [ClickCheckModel true Ok] = true
      /\ model (app (after [ClickCheckModel true Ok] sample_init)) <> None).
Proof.
  split; [split; vm_compute; reflexivity|].
  apply (proj2 (start_disabled_until_model_loads (lit "/home/user/app/model"))
           [ClickCheckModel true Ok]
           (after [ClickCheckModel true Ok] sample_init));
    vm_compute; reflexivity.
Defined.

(** Stop while listening. *)
Lemma stop_reenables_start_sample :
  is_listening (app listening_sys) = true
  /\ (start_button (ui (exec (stop_listening CloseOk) (app listening_sys)))
      = NORMAL
      /\ stop_button (ui (exec (stop_listening CloseOk) (app listening_sys)))
         = DISABLED
      /\ is_listening (exec (stop_listening CloseOk) (app listening_sys))
         = false).
Proof.
  split; [vm_compute; reflexivity|].
  apply (stop_reenables_start CloseOk (app listening_sys)).
  vm_compute; reflexivity.
Defined.

(** The audio parameters along the sample run, in which thread 0 has
    opened the microphone and the recognizer has been constructed. *)
Lemma microphone_sample :
  reachable listening_sys
  /\ (Forall (fun ae => audio_params_ok (snd ae)) (trace listening_sys)
      /\ (forall who who' cfg m sample_rate,
            In (who, EStreamOpen cfg) (trace listening_sys) ->
            In (who', ERecognizerNew m sample_rate) (trace listening_sys) ->
            rate cfg = sample_rate)
      /\ audio_state_ok (app listening_sys)
      /\ opened_ok listening_sys
      /\ (is_listening (app listening_sys) = true ->
          recognizer (app listening_sys)
          = Some (mkRecognizer (model (app listening_sys)) 16000)))
  /\ In (Worker 0, EStreamOpen microphone) (trace listening_sys)
  /\ In (UIThread, ERecognizerNew (Some (mkModel (lit "./model"))) 16000)
       (trace listening_sys).
Proof.
  assert (R : reachable listening_sys).
  { exists (lit "/home/user/app/model"), sched_listening.
    vm_compute; reflexivity. }
  pose proof (proj1 (proj2 microphone_mono_16khz_pcm) listening_sys R) as H.
  split; [exact R|]. split; [exact H|]. split.
  - destruct H as (_ & _ & _ & (Hopen & _) & _).
    apply (Hopen 0). vm_compute. reflexivity.
  - vm_compute. repeat (first [left; reflexivity | right]).
Defined.

(** Start clicked again while listening. *)
Lemma start_noop_sample :
  is_listening (app listening_sys) = true
  /\ (exec (start_listening 1 StartOk) (app listening_sys) = app listening_sys
      /\ events (start_listening 1 StartOk) (app listening_sys)
         = events (logger DEBUG
                     (lit "Already listening, ignoring start request"))
             (app listening_sys)).
Proof.
  split; [vm_compute; reflexivity|].
  apply (proj1 start_stop_noop_when_redundant 1 StartOk (app listening_sys)).
  vm_compute; reflexivity.
Defined.

(** Save clicked with nothing transcribed yet. *)
Lemma save_empty_sample :
  forallb is_space (transcript_text (ui (app listening_sys))) = true
  /\ (exec (save_transcript (lit "out.txt") FileOk) (app listening_sys)
      = app listening_sys
      /\ events (save_transcript (lit "out.txt") FileOk) (app listening_sys)
         = [EAfter (LogAppend DEBUG (lit "No transcript to save"));
            EStdout DEBUG (lit "No transcript to save");
            EShowInfo (lit "Save Transcript") (lit "No transcript to save.")]).
Proof.
  split; [vm_compute; reflexivity|].
  apply (proj1 save_empty_transcript_guarded (lit "out.txt") FileOk
           (app listening_sys)).
  vm_compute; reflexivity.
Defined.

(* ================================================================== *)
(** ** Further properties of the application *)
(* ================================================================== *)



(** The buttons and the flag agree in every state the application can
    reach: stop is enabled only while start and check-model are disabled;
    while [is_listening] is true, stop is enabled, the PyAudio object exists
    and the recognizer in use was built at 16000 Hz from the model that is
    loaded now; start is enabled only with a model loaded. *)
Theorem controls_consistent :
  forall s, reachable s -> controls_ok (app s).
Proof.
  intros s (cwd_model & sched & Hrun).
  assert (Hinit : controls_ok (app (init_sys cwd_model))).
  { unfold controls_ok. cbn. repeat split; intros; discriminate. }
  revert s Hrun Hinit. generalize (init_sys cwd_model) as s0.
  induction sched as [|l r IH]; intros s0 s Hrun H0.
  - simpl in Hrun. injection Hrun as <-. exact H0.
  - simpl in Hrun. destruct (sys_step l s0) as [s1|] eqn:E; [|discriminate].
    apply (IH s1 s Hrun). exact (step_controls_ok l s0 s1 E H0).
Qed.

Lemma step_start_locked (l : Label) (s s' : Sys) :
  sys_step l s = Some s' ->
  start_locked (app s) ->
  start_locked (app s')
  /\ is_click_start l = false /\ is_model_loaded l = false.
Proof.
  unfold start_locked. intros H (H1 & H2 & H3).
  step_cases H; gate; try congruence; unfold_methods;
    try match goal with p : WPc |- _ => destruct p end;
    try match goal with c : Callback |- _ => destruct c end;
    cbn; try rewrite H1; branches; cbn; auto.
Qed.

(** A recognition thread that cannot open the microphone leaves the
    application with start disabled for good. In a state the application
    can reach while listening, the thread's failure clears [is_listening]
    and touches no button, so that start and check-model stay disabled and
    stop, still enabled, finds nothing to stop; from then on no run of the
    application enables start or check-model again, and none contains an
    accepted click on either. *)
Theorem start_locked_after_thread_failure :
  (forall o e s,
     reachable s ->
     is_listening (app s) = true ->
     open_error (open_outcome o) = Some e ->
     start_locked (exec (worker_step o WStart) (app s))
     /\ stop_button (ui (exec (worker_step o WStart) (app s))) = NORMAL)
  /\
  (forall sched s s',
     start_locked (app s) ->
     run sched s = Some s' ->
     start_locked (app s')
     /\ existsb is_click_start sched = false
     /\ existsb is_model_loaded sched = false).
Proof.
  split.
  - intros o e s R Hl He.
    destruct (reachable_controls_ok s R) as (H1 & H2 & _).
    destruct (H2 Hl) as (Hs & Ha & _). destruct (H1 Hs) as [Hst Hck].
    unfold start_locked. unfold_methods. cbn. rewrite Ha. cbn.
    destruct (open_outcome o); try discriminate He; cbn; auto.
  - induction sched as [|l r IH]; intros s s' HL Hrun.
    + simpl in Hrun. injection Hrun as <-. auto.
    + simpl in Hrun. destruct (sys_step l s) as [s1|] eqn:E; [|discriminate].
      destruct (step_start_locked _ _ _ E HL) as (HL1 & Hc & Hm).
      destruct (IH _ _ HL1 Hrun) as (HL' & Hc' & Hm').
      simpl. rewrite Hc, Hm, Hc', Hm'. auto.
Qed.










Ltac paired_tac :=
  let a := fresh "a" in
  intros a; unfold_methods; branches; reflexivity.

Lemma paired_logger lvl msg : paired (logger lvl msg).
Proof. paired_tac. Qed.




(** *** Start and stop *)








(** A start that fails after the PyAudio object was created (in
    [KaldiRecognizer] or in starting the thread) starts no thread and clears
    [is_listening], but keeps the PyAudio object: nothing terminates it, and
    a [stop_listening] after it returns at once, leaving everything as it
    is. *)
Theorem failed_start_keeps_audio_object :
  forall tid o e o' s,
    is_listening s = false ->
    o = RecognizerRaises e \/ o = ThreadStartRaises e ->
    audio (exec (start_listening tid o) s) = Some PyAudioInstance
    /\ is_listening (exec (start_listening tid o) s) = false
    /\ spawned (events (start_listening tid o) s) = []
    /\ count is_audio_init (events (start_listening tid o) s) = 1
    /\ count is_audio_terminate (events (start_listening tid o) s) = 0
    /\ exec (stop_listening o') (exec (start_listening tid o) s)
       = exec (start_listening tid o) s
    /\ count is_audio_terminate
         (events (stop_listening o') (exec (start_listening tid o) s)) = 0.
Proof.
  intros tid o e o' s H [-> | ->]; unfold_methods; cbn; rewrite H; cbn;
    repeat split; reflexivity.
Qed.

(** *** Whitespace *)

Lemma lstrip_blank (s : str) : truthy (lstrip s) = negb (blank s).
Proof.
  unfold blank. induction s as [|c r IH]; simpl; [reflexivity|].
  destruct (is_space c); simpl; [exact IH | reflexivity].
Qed.

Lemma blank_lstrip (s : str) : blank (lstrip s) = blank s.
Proof.
  unfold blank. induction s as [|c r IH]; simpl; [reflexivity|].
  destruct (is_space c) eqn:E; simpl; [exact IH | rewrite E; reflexivity].
Qed.

Lemma blank_app (a b : str) : blank (a ++ b) = blank a && blank b.
Proof. apply forallb_app. Qed.

Lemma blank_rev (s : str) : blank (rev s) = blank s.
Proof.
  induction s as [|c r IH]; simpl; [reflexivity|].
  rewrite blank_app, IH. unfold blank. simpl.
  rewrite andb_true_r. apply andb_comm.
Qed.

Lemma truthy_rev (s : str) : truthy (rev s) = truthy s.
Proof.
  destruct s as [|c r]; simpl; [reflexivity|].
  destruct (rev r); reflexivity.
Qed.

Lemma strip_blank (s : str) : truthy (strip s) = negb (blank s).
Proof.
  unfold strip, rstrip.
  rewrite truthy_rev, lstrip_blank, blank_rev, blank_lstrip. reflexivity.
Qed.

Lemma lstrip_head (s : str) (c : N) (r : str) :
  lstrip s = c :: r -> is_space c = false.
Proof.
  induction s as [|d t IH]; simpl; [discriminate|].
  destruct (is_space d) eqn:E; [exact IH|].
  intros H. injection H as <- _. exact E.
Qed.

Lemma lstrip_snoc (l : str) (c : N) :
  is_space c = false -> lstrip (l ++ [c]) = lstrip l ++ [c].
Proof.
  intros Hc. induction l as [|d t IH]; simpl.
  - rewrite Hc. reflexivity.
  - destruct (is_space d); [exact IH | reflexivity].
Qed.

Lemma rstrip_cons (c : N) (r : str) :
  is_space c = false -> rstrip (c :: r) = c :: rstrip r.
Proof.
  intros Hc. unfold rstrip. simpl.
  rewrite (lstrip_snoc _ _ Hc), rev_app_distr. reflexivity.
Qed.

Lemma rstrip_last (r : str) (c : N) :
  is_space c = false -> is_space (last (rstrip r) c) = false.
Proof.
  intros Hc. unfold rstrip.
  destruct (lstrip (rev r)) as [|d z] eqn:E; simpl; [exact Hc|].
  rewrite last_last. exact (lstrip_head _ _ _ E).
Qed.

Lemma strip_not_ragged (s : str) : ragged (strip s) = false.
Proof.
  unfold strip. destruct (lstrip s) as [|c r] eqn:E; [reflexivity|].
  pose proof (lstrip_head _ _ _ E) as Hc.
  rewrite (rstrip_cons _ _ Hc). unfold ragged.
  rewrite Hc, (rstrip_last r _ Hc). reflexivity.
Qed.

Lemma blank_get_all (content : str) :
  blank (TkText.get_all content) = blank content.
Proof.
  unfold TkText.get_all. rewrite blank_app. apply andb_true_r.
Qed.

(** A recognized text of whitespace only never reaches the transcript, and
    a text with content always leaves the transcript with content:
    [_add_transcript_impl] makes no outside call; on a blank text it leaves
    the object as it is; otherwise it adds the stripped text and a newline at
    the end, after a space exactly when the transcript already had content. *)
Theorem blank_text_never_added :
  forall text s,
    events (_add_transcript_impl text) s = []
    /\ (blank text = true -> exec (_add_transcript_impl text) s = s)
    /\ (blank text = false ->
        transcript_text (ui (exec (_add_transcript_impl text) s))
        = transcript_text (ui s)
          ++ (if blank (transcript_text (ui s)) then [] else space)
          ++ strip text ++ newline
        /\ blank (transcript_text (ui (exec (_add_transcript_impl text) s)))
           = false).
Proof.
  intros text s. unfold_methods. unfold TkText.insert_end.
  pose proof (strip_blank text) as Ht.
  pose proof (strip_blank (TkText.get_all (transcript_text (ui s)))) as Hc.
  rewrite blank_get_all in Hc.
  assert (Hb : blank text = false -> blank (strip text) = false).
  { intros Hf. rewrite Hf in Ht. destruct (strip text) as [|c r] eqn:E;
      [discriminate Ht|].
    unfold blank. simpl.
    assert (Hns : ragged (strip text) = false) by apply strip_not_ragged.
    rewrite E in Hns. unfold ragged in Hns.
    apply orb_false_iff in Hns. destruct Hns as [-> _]. reflexivity. }
  destruct (blank text); cbn in Ht; rewrite Ht; cbn.
  - repeat split; intros; try reflexivity; discriminate.
  - destruct (blank (transcript_text (ui s))) eqn:Eb; cbn in Hc;
      rewrite Hc; cbn; (split; [reflexivity|]);
      (split; [discriminate|]); intros _; (split; [reflexivity|]).
    + rewrite !blank_app, (Hb eq_refl), andb_false_r. reflexivity.
    + rewrite blank_app, Eb. reflexivity.
Qed.

Lemma save_writes (filename : str) (fo : FileOutcome) (s : App)
      (name content : str) :
  In (EFileWrite name content) (events (save_transcript filename fo) s) ->
  name = filename
  /\ content = strip (TkText.get_all (transcript_text (ui s)))
  /\ truthy content = true.
Proof.
  unfold_methods. cbn.
  destruct (truthy (strip (TkText.get_all (transcript_text (ui s))))) eqn:Et;
    cbn; [destruct (truthy filename); cbn; [destruct fo; cbn |] |];
    intros Hin;
    repeat (destruct Hin as [Hin | Hin]; [try discriminate Hin |]);
    try contradiction;
    injection Hin as <- <-; auto.
Qed.

(** What [save_transcript] writes is never empty and never begins or ends
    with whitespace: it is the transcript with the whitespace around it
    (the widget's final newline included) removed, written to the file the
    user named. *)
Theorem saved_text_is_trimmed :
  forall filename fo s name content,
    In (EFileWrite name content) (events (save_transcript filename fo) s) ->
    name = filename
    /\ content <> []
    /\ ragged content = false
    /\ blank (transcript_text (ui s)) = false.
Proof.
  intros filename fo s name content Hin.
  destruct (save_writes _ _ _ _ _ Hin) as (Hn & Hc & Ht).
  split; [exact Hn|]. split; [intros E; rewrite E in Ht; discriminate Ht|].
  split; [rewrite Hc; apply strip_not_ragged|].
  rewrite Hc, strip_blank, blank_get_all in Ht.
  destruct (blank (transcript_text (ui s))); [discriminate Ht | reflexivity].
Qed.

(** *** Status line, model selection, empty results *)

(** The status line stays short whatever the recognizer returns: after
    [_update_partial_impl] it is at most 55 code points long; a partial text
    of at most 20 code points is shown whole, a longer one is cut after 20
    and followed by three dots. *)
Theorem partial_status_bounded :
  forall text s,
    List.length (status_label (ui (exec (_update_partial_impl text) s))) <= 55
    /\ (List.length text <= 20 ->
        status_label (ui (exec (_update_partial_impl text) s))
        = partial_prefix ++ text ++ lit "]")
    /\ (20 < List.length text ->
        status_label (ui (exec (_update_partial_impl text) s))
        = partial_prefix ++ firstn 20 text ++ lit "...]").
Proof.
  intros text s.
  unfold exec, _update_partial_impl, modify_ui, modify, take.
  cbn [fst snd ui set_ui set_status_label status_label].
  fold partial_prefix.
  assert (Hp : List.length partial_prefix = 31) by reflexivity.
  pose proof (firstn_le_length 20 text) as Hf.
  destruct (Nat.ltb_spec 20 (List.length text)) as [Hlt | Hle].
  - split; [| split; [lia | intros _; reflexivity]].
    rewrite !length_app, Hp.
    change (List.length (lit "...")) with 3.
    change (List.length (lit "]")) with 1. lia.
  - split; [| split; [intros _ | lia]].
    + rewrite !length_app, Hp.
      change (List.length (@nil N)) with 0.
      change (List.length (lit "]")) with 1. lia.
    + rewrite firstn_all2 by exact Hle. reflexivity.
Qed.

(** The model that [check_model] loads is the directory chosen last in
    [browse_model]: cancelling the directory dialog changes nothing in the
    object; after a directory [d] was chosen, [check_model] asks for [d],
    and if it exists and loads, the model from [d] is held and start is
    enabled; if it does not exist, nothing is loaded and the object is as
    after the choice. *)
Theorem browse_then_check_loads_selection :
  (forall s, exec (browse_model []) s = s)
  /\
  (forall d s,
     truthy d = true ->
     model_path_var (ui (exec (browse_model d) s)) = d
     /\ In (EPathExists d)
          (events (check_model true Ok) (exec (browse_model d) s))
     /\ In (EModelLoad d)
          (events (check_model true Ok) (exec (browse_model d) s))
     /\ model (exec (check_model true Ok) (exec (browse_model d) s))
        = Some (mkModel d)
     /\ start_button
          (ui (exec (check_model true Ok) (exec (browse_model d) s)))
        = NORMAL
     /\ (forall ld,
           count is_model_load
             (events (check_model false ld) (exec (browse_model d) s)) = 0
           /\ exec (check_model false ld) (exec (browse_model d) s)
              = exec (browse_model d) s)).
Proof.
  split.
  - intros s. destruct s as [? ? ? ? ? ? ? ? []]. reflexivity.
  - intros d s Hd. unfold_methods. cbn. rewrite Hd. cbn.
    repeat split; in_list.
Qed.

(** Empty input never reaches the UI. A read that returns no data is not
    given to the recognizer; a final result without text and a partial
    result without text queue no closure. In all three cases the thread
    goes back to the head of the loop and the object is unchanged. *)
Theorem empty_results_queue_nothing :
  forall oo s,
    (events (worker_step (mkWorkerOracle oo ReadEmpty) WBody) s
     = [EStreamRead 4000 false;
        EAfter (LogAppend DEBUG (lit "Empty audio data received"));
        EStdout DEBUG (lit "Empty audio data received")]
     /\ events (worker_step (mkWorkerOracle oo (FinalResult [])) WBody) s
        = [EStreamRead 4000 false; EAcceptWaveform]
     /\ events (worker_step (mkWorkerOracle oo (PartialResult [])) WBody) s
        = [EStreamRead 4000 false; EAcceptWaveform])
    /\ (forall ch,
          ch = ReadEmpty \/ ch = FinalResult [] \/ ch = PartialResult [] ->
          exec (worker_step (mkWorkerOracle oo ch) WBody) s = s
          /\ result (worker_step (mkWorkerOracle oo ch) WBody) s = WHead).
Proof.
  intros oo s. split; [repeat split; reflexivity|].
  intros ch [-> | [-> | ->]]; split; reflexivity.
Qed.

(** *** The further properties on the sample runs *)

Lemma controls_consistent_sample :
  reachable listening_sys /\ controls_ok (app listening_sys).
Proof.
  assert (R : reachable listening_sys).
  { exists (lit "/home/user/app/model"), sched_listening.
    vm_compute; reflexivity. }
  split; [exact R | exact (controls_consistent listening_sys R)].
Defined.

(** After the thread has failed to open the microphone, clicking stop,
    browsing, clearing: start stays disabled. *)
Lemma start_locked_sample :
  (start_locked (app locked_sys)
   /\ run sched_try_again locked_sys = Some (after sched_try_again locked_sys))
  /\ (start_locked (app (after sched_try_again locked_sys))
      /\ existsb is_click_start sched_try_again = false
      /\ existsb is_model_loaded sched_try_again = false).
Proof.
  assert (L : start_locked (app locked_sys))
    by (repeat split; vm_compute; reflexivity).
  assert (Hrun : run sched_try_again locked_sys
                 = Some (after sched_try_again locked_sys))
    by (vm_compute; reflexivity).
  split; [split; assumption|].
  exact (proj2 start_locked_after_thread_failure sched_try_again locked_sys
           (after sched_try_again locked_sys) L Hrun).
Defined.



Lemma failed_start_sample :
  (is_listening (app stopped_sys) = false
   /\ (RecognizerRaises (lit "Failed to create a recognizer")
       = RecognizerRaises (lit "Failed to create a recognizer")
       \/ RecognizerRaises (lit "Failed to create a recognizer")
          = ThreadStartRaises (lit "Failed to create a recognizer")))
  /\ audio (exec (start_listening 1
                    (RecognizerRaises (lit "Failed to create a recognizer")))
              (app stopped_sys))
     = Some PyAudioInstance.
Proof.
  assert (H : is_listening (app stopped_sys) = false)
    by (vm_compute; reflexivity).
  split; [split; [exact H | left; reflexivity]|].
  exact (proj1 (failed_start_keeps_audio_object 1
                  (RecognizerRaises (lit "Failed to create a recognizer"))
                  (lit "Failed to create a recognizer") CloseOk
                  (app stopped_sys) H (or_introl eq_refl))).
Defined.

Lemma blank_text_sample :
  blank (lit "  ") = true
  /\ exec (_add_transcript_impl (lit "  ")) (app heard_sys) = app heard_sys.
Proof.
  assert (H : blank (lit "  ") = true) by (vm_compute; reflexivity).
  split; [exact H|].
  exact (proj1 (proj2 (blank_text_never_added (lit "  ") (app heard_sys))) H).
Defined.

(** Saving once [hello world] is in the transcript. *)
Lemma saved_text_sample :
  In (EFileWrite (lit "out.txt") (lit "hello world"))
     (events (save_transcript (lit "out.txt") FileOk)
        (app (after [RunCallback] heard_sys)))
  /\ (lit "out.txt" = lit "out.txt"
      /\ lit "hello world" <> []
      /\ ragged (lit "hello world") = false
      /\ blank (transcript_text (ui (app (after [RunCallback] heard_sys))))
         = false).
Proof.
  assert (H : In (EFileWrite (lit "out.txt") (lit "hello world"))
                (events (save_transcript (lit "out.txt") FileOk)
                   (app (after [RunCallback] heard_sys))))
    by (vm_compute; auto 10).
  split; [exact H|].
  exact (saved_text_is_trimmed (lit "out.txt") FileOk
           (app (after [RunCallback] heard_sys)) (lit "out.txt")
           (lit "hello world") H).
Defined.

Lemma partial_status_sample :
  List.length (lit "hello wor") <= 20
  /\ status_label
       (ui (exec (_update_partial_impl (lit "hello wor")) (app listening_sys)))
     = partial_prefix ++ lit "hello wor" ++ lit "]".
Proof.
  assert (H : List.length (lit "hello wor") <= 20) by (vm_compute; lia).
  split; [exact H|].
  exact (proj1 (proj2 (partial_status_bounded (lit "hello wor")
                         (app listening_sys))) H).
Defined.

Lemma browse_then_check_sample :
  truthy (lit "/models/en") = true
  /\ model (exec (check_model true Ok)
              (exec (browse_model (lit "/models/en")) (app sample_init)))
     = Some (mkModel (lit "/models/en")).
Proof.
  assert (H : truthy (lit "/models/en") = true) by reflexivity.
  split; [exact H|].
  exact (proj1 (proj2 (proj2 (proj2
           (proj2 browse_then_check_loads_selection (lit "/models/en")
              (app sample_init) H))))).
Defined.

Lemma empty_results_sample :
  (FinalResult [] = ReadEmpty \/ FinalResult [] = FinalResult []
   \/ FinalResult [] = PartialResult [])
  /\ (exec (worker_step (mkWorkerOracle OpenOk (FinalResult [])) WBody)
        (app listening_sys) = app listening_sys
      /\ result (worker_step (mkWorkerOracle OpenOk (FinalResult [])) WBody)
           (app listening_sys) = WHead).
Proof.
  assert (H : FinalResult [] = ReadEmpty \/ FinalResult [] = FinalResult []
              \/ FinalResult [] = PartialResult [])
    by (right; left; reflexivity).
  split; [exact H|].
  exact (proj2 (empty_results_queue_nothing OpenOk (app listening_sys))
           (FinalResult []) H).
Defined.

(** *** Closing the window *)

(** Closing the window stops a recognition under way before the window is
    destroyed: [on_closing] changes the object exactly as [stop_listening]
    does when listening (so the PyAudio object is terminated and
    [is_listening] cleared) and not at all otherwise; its last call is the
    destruction of the window, and [is_listening] is false afterwards. *)
Theorem closing_stops_listening :
  forall o s,
    exec (on_closing o) s = exec (stop_listening o) s
    /\ is_listening (exec (on_closing o) s) = false
    /\ last (events (on_closing o) s) EDestroy = EDestroy
    /\ count is_destroy (events (on_closing o) s) = 1
    /\ (is_listening s = true ->
        audio (exec (on_closing o) s) = None
        /\ count is_audio_terminate (events (on_closing o) s)
           = match audio s with Some _ => 1 | None => 0 end)
    /\ (is_listening s = false ->
        exec (on_closing o) s = s
        /\ count is_audio_terminate (events (on_closing o) s) = 0).
Proof.
  intros o s. unfold count. unfold_methods.
  branches; repeat split; intros; try reflexivity; congruence.
Qed.

Lemma closing_sample :
  is_listening (app listening_sys) = true
  /\ (audio (exec (on_closing CloseOk) (app listening_sys)) = None
      /\ count is_audio_terminate
           (events (on_closing CloseOk) (app listening_sys))
         = match audio (app listening_sys) with Some _ => 1 | None => 0 end).
Proof.
  assert (H : is_listening (app listening_sys) = true)
    by (vm_compute; reflexivity).
  split; [exact H|].
  exact (proj1 (proj2 (proj2 (proj2 (proj2
           (closing_stops_listening CloseOk (app listening_sys)))))) H).
Defined.

End App.

(* ================================================================== *)
(** ** Properties of build_exe.py *)
(* ================================================================== *)

Module BuildExeSpec.
Import BuildExe.

(** C5, as stated, fails: the argument vector is not the same for every
    build. With the default options it carries [--onefile] and
    [--windowed]; built as a directory with a console it carries neither. *)
Lemma build_argv_depends_on_options :
  subprocess_calls
    (fst (build_executable (Posix.os []) onefile_windowed CallOk))
  = [[lit "pyinstaller"; lit "--name=vosk_speech_to_text"; lit "--clean";
      lit "--onefile"; lit "--windowed"; lit "vosk_speech_to_text.py"]]
  /\ subprocess_calls
       (fst (build_executable (Posix.os []) onedir_console CallOk))
     = [[lit "pyinstaller"; lit "--name=vosk_speech_to_text"; lit "--clean";
         lit "vosk_speech_to_text.py"]].
Proof. split; vm_compute; reflexivity. Qed.

(** C5 (amended). [build_executable] runs the packaging tool exactly once,
    as a subprocess given its arguments as a list. The list follows the
    options: it begins with [pyinstaller], [--name=] with the output name
    (by default the script's base name without extension) and [--clean];
    then come [--onefile] if [one_file], [--windowed] unless [console],
    [--icon=] if an icon is given and exists, [--add-data=] if the model is
    to be included, is given and exists; it ends with the script path. *)
Theorem build_argv_follows_options :
  forall os b call,
    subprocess_calls (fst (build_executable os b call))
    = [ [lit "pyinstaller"; lit "--name=" ++ effective_name os b;
         lit "--clean"]
        ++ (if one_file b then [lit "--onefile"] else [])
        ++ (if console b then [] else [lit "--windowed"])
        ++ (match icon b with
            | Some i =>
                if truthy i && path_exists os i
                then [lit "--icon=" ++ i] else []
            | None => []
            end)
        ++ (match model_path b with
            | Some m =>
                if include_model b && truthy m && path_exists os m
                then [lit "--add-data=" ++ m ++ pathsep os ++ lit "model/"
                        ++ basename os m]
                else []
            | None => []
            end)
        ++ [script_path b] ].
Proof.
  intros os b call.
  assert (Hcalls :
    subprocess_calls (fst (build_executable os b call))
    = [pyinstaller_args os b]) by (destruct call; reflexivity).
  rewrite Hcalls. f_equal. unfold pyinstaller_args, append.
  destruct (one_file b), (console b), (icon b) as [i|],
    (model_path b) as [m|]; cbn [negb];
    try destruct (truthy i && path_exists os i);
    try destruct (include_model b && truthy m && path_exists os m);
    reflexivity.
Qed.

(* ------------------------------------------------------------------ *)
(** *** Further properties of the script *)
(* ------------------------------------------------------------------ *)

Ltac unfold_script :=
  unfold actions, fs_after, outcome, main, resolve_model, run_build,
    download_vosk_model, check_vosk_model, check_dependencies,
    ensure_pyinstaller, ensure_vosk, ensure_pyaudio,
    import_or_raise, check_call, path_exists_now, create, act, raise, pass,
    sbind, sret, importable in *.

(** Case analysis on what the script branches on. *)
Ltac script_branch :=
  match goal with
  | |- context [match import_of ?w ?n with _ => _ end] =>
      destruct (import_of w n) eqn:?
  | |- context [match run_call ?w ?a with _ => _ end] =>
      destruct (run_call w a) eqn:?
  | |- context [match eqb ?a ?b with _ => _ end] => destruct (eqb a b) eqn:?
  | |- context [match exists_in ?f ?p with _ => _ end] =>
      destruct (exists_in f p) eqn:?
  | |- context [match negb ?b with _ => _ end] => destruct b eqn:?
  | |- context [match model_loads ?w ?p with _ => _ end] =>
      destruct (model_loads w p) eqn:?
  | |- context [match makedirs ?w ?p with _ => _ end] =>
      destruct (makedirs w p) eqn:?
  | |- context [match fetch ?w ?u with _ => _ end] =>
      destruct (fetch w u) eqn:?
  | |- context [match unzip ?w ?z ?d with _ => _ end] =>
      destruct (unzip w z d) eqn:?
  end.

Ltac script_branches := cbn; repeat (script_branch; cbn).

Lemma eqb_refl (a : str) : eqb a a = true.
Proof. unfold eqb. destruct (str_eq_dec a a); [reflexivity | congruence]. Qed.

Lemma eqb_eq (a b : str) : eqb a b = true -> a = b.
Proof. unfold eqb. destruct (str_eq_dec a b); [auto | discriminate]. Qed.

Lemma install_command_pip (w : World) (package : str) :
  is_install_command w (pip_install w package) = true.
Proof. unfold is_install_command, pip_install. rewrite eqb_refl. reflexivity. Qed.

Lemma install_command_pipwin (w : World) (package : str) :
  is_install_command w (pipwin_install w package) = true.
Proof.
  unfold is_install_command, pipwin_install. rewrite eqb_refl. reflexivity.
Qed.

Lemma sbind_returned {A B : Type} (m : Script A) (k : A -> Script B)
      (fs : FS) (a : A) :
  outcome m fs = Returned a ->
  actions (sbind m k) fs = actions m fs ++ actions (k a) (fs_after m fs)
  /\ fs_after (sbind m k) fs = fs_after (k a) (fs_after m fs)
  /\ outcome (sbind m k) fs = outcome (k a) (fs_after m fs).
Proof.
  unfold outcome, actions, fs_after, sbind.
  destruct (m fs) as [[a1 fs1] r]. cbn. intros ->.
  destruct (k a fs1) as [[a2 fs2] r2]. cbn. auto.
Qed.

Lemma sbind_raised {A B : Type} (m : Script A) (k : A -> Script B)
      (fs : FS) (e : str) :
  outcome m fs = Raised e ->
  actions (sbind m k) fs = actions m fs
  /\ fs_after (sbind m k) fs = fs_after m fs
  /\ outcome (sbind m k) fs = Raised e.
Proof.
  unfold outcome, actions, fs_after, sbind.
  destruct (m fs) as [[a1 fs1] r]. cbn. intros ->. auto.
Qed.

Lemma commands_app (a b : list Action) :
  commands (a ++ b) = commands a ++ commands b.
Proof.
  induction a as [|x r IH]; simpl; [reflexivity|].
  destruct x; try exact IH; [| destruct e; try exact IH]; simpl;
    f_equal; exact IH.
Qed.

Lemma log_records_app (a b : list Action) :
  log_records (a ++ b) = log_records a ++ log_records b.
Proof.
  induction a as [|x r IH]; simpl; [reflexivity|].
  destruct x; try exact IH; [| | destruct e; try exact IH]; simpl;
    f_equal; exact IH.
Qed.

Lemma importable_imported (w : World) (name : str) :
  importable w name = true -> import_of w name = Imported.
Proof. unfold importable. destruct (import_of w name); congruence. Qed.

Ltac careful_tac :=
  repeat split; intros;
  repeat match goal with
         | |- Forall _ (_ :: _) => constructor
         | |- Forall _ [] => constructor
         end;
  try reflexivity; try discriminate; try (cbn; lia);
  try (unfold expected_command; tauto);
  try (unfold package_of; cbn;
       match goal with H : import_of _ _ = _ |- _ => rewrite H end;
       reflexivity);
  try match goal with
      | H : Raised _ = Raised _ |- exists pre a, ?acts = pre ++ [a] /\ _ =>
          injection H as <-;
          match acts with
          | [?x] => exists [], x
          | [?a; ?x] => exists [a], x
          | [?a; ?b; ?x] => exists [a; b], x
          | [?a; ?b; ?c; ?x] => exists [a; b; c], x
          | [?a; ?b; ?c; ?d; ?x] => exists [a; b; c; d], x
          | [?a; ?b; ?c; ?d; ?f; ?x] => exists [a; b; c; d; f], x
          | [?a; ?b; ?c; ?d; ?f; ?g; ?x] => exists [a; b; c; d; f; g], x
          end;
          split; [reflexivity | cbn; auto]
      end.

Lemma careful_pyinstaller (os : OS) (w : World) :
  careful os w (importable w (lit "pyinstaller")) 1 (ensure_pyinstaller w).
Proof. intros fs. unfold_script. script_branches; careful_tac. Qed.

Lemma careful_vosk (os : OS) (w : World) :
  careful os w (importable w (lit "vosk")) 1 (ensure_vosk w).
Proof. intros fs. unfold_script. script_branches; careful_tac. Qed.

Lemma careful_pyaudio (os : OS) (w : World) :
  careful os w (importable w (lit "pyaudio")) 2 (ensure_pyaudio os w).
Proof. intros fs. unfold_script. script_branches; careful_tac. Qed.

Lemma careful_seq (os : OS) (w : World) (p1 p2 : bool) (n1 n2 : nat)
      (m1 m2 : Script unit) :
  careful os w p1 n1 m1 -> careful os w p2 n2 m2 ->
  careful os w (p1 && p2) (n1 + n2) (sbind m1 (fun _ => m2)).
Proof.
  intros H1 H2 fs.
  destruct (H1 fs) as (F1 & A1 & M1 & L1 & P1 & R1).
  destruct (outcome m1 fs) as [[]|e1] eqn:E1.
  - destruct (sbind_returned m1 (fun _ => m2) fs tt E1) as (Ha & Hf & Ho).
    rewrite Ha, Hf, Ho, commands_app, F1.
    destruct (H2 fs) as (F2 & A2 & M2 & L2 & P2 & R2).
    split; [exact F2|]. split; [apply Forall_app; auto|].
    split; [apply Forall_app; auto|].
    split; [rewrite length_app; lia|]. split.
    + intros Hp. apply andb_true_iff in Hp. destruct Hp as [Hp1 Hp2].
      destruct (P1 Hp1) as [-> _]. destruct (P2 Hp2) as [-> Hr]. auto.
    + intros e He. destruct (R2 e He) as (pre & a & Hx & Hy).
      exists (actions m1 fs ++ pre), a. rewrite Hx, app_assoc. auto.
  - destruct (sbind_raised m1 (fun _ => m2) fs e1 E1) as (Ha & Hf & Ho).
    rewrite Ha, Hf, Ho.
    split; [exact F1|]. split; [exact A1|]. split; [exact M1|].
    split; [lia|]. split.
    + intros Hp. apply andb_true_iff in Hp. destruct Hp as [Hp1 _].
      destruct (P1 Hp1) as [_ Hr]. discriminate Hr.
    + intros e He. injection He as <-. exact (R1 e1 eq_refl).
Qed.

Lemma careful_check_dependencies (os : OS) (w : World) :
  careful os w (dependencies_installed w) 4 (check_dependencies os w).
Proof.
  unfold dependencies_installed, check_dependencies.
  rewrite <- andb_assoc.
  apply (careful_seq os w _ _ 1 3 _ _ (careful_pyinstaller os w)).
  apply (careful_seq os w _ _ 1 2 _ _ (careful_vosk os w)).
  apply careful_pyaudio.
Qed.

Lemma expected_is_install (os : OS) (w : World) (argv : list str) :
  expected_command os w argv -> is_install_command w argv = true.
Proof.
  intros [-> | [-> | [[_ [-> | ->]] | [_ ->]]]];
    first [apply install_command_pip | apply install_command_pipwin].
Qed.

(** [check_dependencies] fetches nothing and unpacks nothing. *)
Lemma check_dependencies_plain (os : OS) (w : World) (fs : FS) :
  filter is_download_work
    (actions (check_dependencies os w) fs) = [].
Proof.
  assert (Hseq : forall (m1 m2 : Script unit),
    (forall fs, filter is_download_work
                  (actions m1 fs) = []) ->
    (forall fs, filter is_download_work
                  (actions m2 fs) = []) ->
    forall fs, filter is_download_work
                 (actions (sbind m1 (fun _ => m2)) fs) = []).
  { intros m1 m2 H1 H2 fs0.
    destruct (outcome m1 fs0) as [[]|e1] eqn:E1.
    - destruct (sbind_returned m1 (fun _ => m2) fs0 tt E1) as (Ha & _).
      rewrite Ha, filter_app, H1, H2. reflexivity.
    - destruct (sbind_raised m1 (fun _ => m2) fs0 e1 E1) as (Ha & _).
      rewrite Ha. apply H1. }
  revert fs. unfold check_dependencies.
  apply Hseq; [| apply Hseq];
    intros fs; unfold_script; script_branches; reflexivity.
Qed.

(** [check_dependencies] installs only what is missing, and only through
    the running interpreter. The subprocesses it starts are among: pip
    install of pyinstaller; pip install of vosk; on Windows, pip install of
    pipwin and pipwin install of pyaudio; elsewhere, pip install of pyaudio;
    all of the form [sys.executable -m pip|pipwin install P], and each for a
    package [P] whose import has just failed. There are at most four, and
    none when PyInstaller, Vosk and PyAudio can be imported: then the
    function returns, having logged that the three are installed. The
    function itself makes no directory, requests nothing, and writes and
    extracts no file. *)
Theorem dependencies_installed_through_interpreter :
  forall os w fs,
    Forall (expected_command os w)
      (commands (actions (check_dependencies os w) fs))
    /\ Forall (fun argv => is_install_command w argv = true)
         (commands (actions (check_dependencies os w) fs))
    /\ Forall (fun argv => importable w (package_of argv) = false)
         (commands (actions (check_dependencies os w) fs))
    /\ List.length (commands (actions (check_dependencies os w) fs)) <= 4
    /\ filter is_download_work (actions (check_dependencies os w) fs) = []
    /\ (dependencies_installed w = true ->
        commands (actions (check_dependencies os w) fs) = []
        /\ outcome (check_dependencies os w) fs = Returned tt
        /\ log_records (actions (check_dependencies os w) fs)
           = [ELogInfo (lit "PyInstaller is installed");
              ELogInfo (lit "Vosk is installed");
              ELogInfo (lit "PyAudio is installed")]).
Proof.
  intros os w fs.
  destruct (careful_check_dependencies os w fs) as (F & A & M & L & P & _).
  split; [exact A|]. split.
  { eapply Forall_impl; [| exact A]. intros argv. apply expected_is_install. }
  split; [exact M|]. split; [exact L|].
  split; [apply check_dependencies_plain|].
  intros Hd. destruct (P Hd) as [Hc Ho]. split; [exact Hc|].
  split; [exact Ho|].
  unfold dependencies_installed in Hd.
  apply andb_true_iff in Hd. destruct Hd as [Hd H3].
  apply andb_true_iff in Hd. destruct Hd as [H1 H2].
  apply importable_imported in H1, H2, H3.
  unfold_script. cbn. rewrite H1. cbn. rewrite H2. cbn. rewrite H3.
  reflexivity.
Qed.

(** A dependency check that fails stops the script there. When
    [check_dependencies] raises, the last thing it did is what raised: an
    installation command that failed, or an import that raised something
    other than [ImportError], which no [except] clause of the function
    catches (so that the function can raise without having started any
    command). [main] then raises the same exception having done nothing
    more: no download, no build. *)
Theorem failed_install_aborts :
  forall os w args fs e,
    outcome (check_dependencies os w) fs = Raised e ->
    (exists pre a,
       actions (check_dependencies os w) fs = pre ++ [a]
       /\ failed w e a)
    /\ actions (main os w args) fs = actions (check_dependencies os w) fs
    /\ outcome (main os w args) fs = Raised e
    /\ filter is_download_work (actions (main os w args) fs) = []
    /\ filter is_build (actions (main os w args) fs) = [].
Proof.
  intros os w args fs e He.
  destruct (careful_check_dependencies os w fs) as (F & _ & _ & _ & _ & R).
  split; [exact (R e He)|].
  assert (Hb : forall fs, filter is_build (actions (check_dependencies os w) fs)
                          = []).
  { assert (Hseq : forall (m1 m2 : Script unit),
      (forall fs, filter is_build (actions m1 fs) = []) ->
      (forall fs, filter is_build (actions m2 fs) = []) ->
      forall fs, filter is_build (actions (sbind m1 (fun _ => m2)) fs) = []).
    { intros m1 m2 H1 H2 fs0.
      destruct (outcome m1 fs0) as [[]|e1] eqn:E1.
      - destruct (sbind_returned m1 (fun _ => m2) fs0 tt E1) as (Ha & _).
        rewrite Ha, filter_app, H1, H2. reflexivity.
      - destruct (sbind_raised m1 (fun _ => m2) fs0 e1 E1) as (Ha & _).
        rewrite Ha. apply H1. }
    unfold check_dependencies.
    apply Hseq; [| apply Hseq];
      intros fs0; unfold_script; script_branches; reflexivity. }
  unfold main.
  match goal with
  | |- context [sbind (check_dependencies os w) ?k] =>
      destruct (sbind_raised (check_dependencies os w) k fs e He)
        as (Ha & Hf & Ho)
  end.
  rewrite Ha, Ho, check_dependencies_plain, Hb. auto.
Qed.

(** [check_vosk_model] answers [True] exactly when the path exists, [vosk]
    can be imported and the model loads; it never raises, whatever the
    import or the model raises; it starts no subprocess, makes no directory,
    and writes and extracts no file itself; it logs one record; it does not
    try to load a model from a path that does not exist; whenever it
    answers [False] the last thing it did was to log the error. *)
Theorem check_vosk_model_verdict :
  forall w p fs,
    outcome (check_vosk_model w p) fs
    = Returned (exists_in fs p && importable w (lit "vosk")
                && match model_loads w p with
                   | None => true
                   | Some _ => false
                   end)
    /\ commands (actions (check_vosk_model w p) fs) = []
    /\ filter is_download_work (actions (check_vosk_model w p) fs) = []
    /\ List.length (log_records (actions (check_vosk_model w p) fs)) = 1
    /\ (exists_in fs p = false ->
        filter is_model_load (actions (check_vosk_model w p) fs) = [])
    /\ (forall e,
          import_of w (lit "vosk") = ImportRaises e ->
          exists_in fs p = true ->
          outcome (check_vosk_model w p) fs = Returned false
          /\ log_records (actions (check_vosk_model w p) fs)
             = [ELogError (lit "Error loading Vosk model: " ++ e)])
    /\ (outcome (check_vosk_model w p) fs = Returned false ->
        ends_with_error (actions (check_vosk_model w p) fs) = true).
Proof.
  intros w p fs. unfold_script. script_branches;
    repeat split; intros; try reflexivity; try discriminate;
    match goal with
    | H : ImportRaises _ = ImportRaises _ |- _ => injection H as <-
    end; reflexivity.
Qed.

Lemma exists_in_app (fs l : FS) (p : str) :
  exists_in (fs ++ l) p = exists_in fs p || exists_in l p.
Proof. apply existsb_app. Qed.

Lemma exists_in_one (p : str) : exists_in [p] p = true.
Proof. unfold exists_in. simpl. rewrite eqb_refl. reflexivity. Qed.

Ltac fs_branches :=
  cbn;
  repeat (first [ progress rewrite ?exists_in_app, ?exists_in_one,
                    ?orb_true_r
                | script_branch ]; cbn).

(** With the archive present, nothing is fetched or written. *)
Lemma cached_zip_no_fetch (os : OS) (w : World) (name : str) (fs : FS) :
  exists_in fs (zip_path_of os name) = true ->
  filter (fun a => is_http_get a || is_open_write a)
    (actions (download_vosk_model os w name) fs) = [].
Proof.
  intros Hz. unfold_script. fs_branches; try reflexivity;
    rewrite ?Hz in *; cbn in *; congruence.
Qed.

(** [download_vosk_model] does not repeat work that is already on disk:
    with the archive present it makes no request and writes no archive;
    with the extracted directory present it extracts nothing; with the model
    directory, the archive and the extracted directory all present (and its
    imports available) it requests nothing, makes no directory, writes and
    extracts no file, logs that the model is already downloaded and already
    extracted, and returns the path of the extracted directory. *)
Theorem download_uses_what_is_on_disk :
  forall os w name fs,
    (exists_in fs (zip_path_of os name) = true ->
     filter (fun a => is_http_get a || is_open_write a)
       (actions (download_vosk_model os w name) fs) = [])
    /\ (exists_in fs (extracted_path_of os name) = true ->
        filter is_extract (actions (download_vosk_model os w name) fs) = [])
    /\ (download_imports_ok w = true ->
        exists_in fs (model_dir_path os) = true ->
        exists_in fs (zip_path_of os name) = true ->
        exists_in fs (extracted_path_of os name) = true ->
        filter is_download_work (actions (download_vosk_model os w name) fs)
        = []
        /\ log_records (actions (download_vosk_model os w name) fs)
           = [ELogInfo (lit "Model already downloaded at "
                          ++ zip_path_of os name);
              ELogInfo (lit "Model already extracted at "
                          ++ extracted_path_of os name)]
        /\ outcome (download_vosk_model os w name) fs
           = Returned (Some (extracted_path_of os name))).
Proof.
  intros os w name fs. split; [apply cached_zip_no_fetch|]. split.
  - intros Hx. unfold_script. fs_branches; try reflexivity;
      rewrite ?Hx in *; cbn in *; congruence.
  - unfold download_imports_ok. intros Hi Hd Hz Hx.
    apply andb_true_iff in Hi. destruct Hi as [Hi Hi3].
    apply andb_true_iff in Hi. destruct Hi as [Hi1 Hi2].
    apply importable_imported in Hi1, Hi2, Hi3.
    unfold_script. cbn. rewrite Hi1. cbn. rewrite Hi2. cbn. rewrite Hi3.
    cbn. rewrite Hd. cbn. rewrite Hz. cbn. rewrite Hx. cbn.
    repeat split; reflexivity.
Qed.

Ltac fold_exists :=
  repeat match goal with
         | |- context [existsb (eqb ?p) ?l] =>
             change (existsb (eqb p) l) with (exists_in l p)
         end.

(** What [download_vosk_model] hands back: a path only if the archive and
    the model directory are on disk afterwards, and then always the path
    [<cwd>/model/<name>]; [None] only after logging the error that made it
    give up; and when it raises (an import or [makedirs] failed) it has
    requested and extracted nothing. *)
Theorem download_result :
  forall os w name fs,
    (forall p,
       outcome (download_vosk_model os w name) fs = Returned (Some p) ->
       p = extracted_path_of os name
       /\ exists_in (fs_after (download_vosk_model os w name) fs)
            (zip_path_of os name) = true
       /\ exists_in (fs_after (download_vosk_model os w name) fs)
            (model_dir_path os) = true)
    /\ (outcome (download_vosk_model os w name) fs = Returned None ->
        ends_with_error (actions (download_vosk_model os w name) fs) = true)
    /\ (forall e,
          outcome (download_vosk_model os w name) fs = Raised e ->
          filter (fun a => is_http_get a || is_extract a)
            (actions (download_vosk_model os w name) fs) = []).
Proof.
  intros os w name fs. unfold_script.
  script_branches; repeat split; intros; try discriminate; try reflexivity;
    try (match goal with H : Returned _ = Returned _ |- _ =>
           injection H as <- end; reflexivity);
    fold_exists; rewrite ?exists_in_app in *; rewrite ?exists_in_one in *;
    repeat match goal with
           | H : ?x = true |- context [?x] => rewrite H
           end; cbn; rewrite ?orb_true_r; reflexivity.
Qed.

(** A download cut off after the archive file was created is never taken
    up again: the call returns [None] and leaves the partial archive on
    disk, and every later call, finding an archive, makes no request and
    writes no archive. *)
Theorem interrupted_download_is_not_resumed :
  forall os w w' name fs e,
    download_imports_ok w = true ->
    makedirs w (model_dir_path os) = None ->
    exists_in fs (zip_path_of os name) = false ->
    eqb (zip_path_of os name) (model_dir_path os) = false ->
    fetch w (url_of name) = TransferRaises e ->
    outcome (download_vosk_model os w name) fs = Returned None
    /\ exists_in (fs_after (download_vosk_model os w name) fs)
         (zip_path_of os name) = true
    /\ filter (fun a => is_http_get a || is_open_write a)
         (actions (download_vosk_model os w' name)
            (fs_after (download_vosk_model os w name) fs)) = [].
Proof.
  intros os w w' name fs e Hi Hm Hz Hne Hf.
  assert (H12 : outcome (download_vosk_model os w name) fs = Returned None
                /\ exists_in (fs_after (download_vosk_model os w name) fs)
                     (zip_path_of os name) = true).
  { unfold download_imports_ok in Hi.
    apply andb_true_iff in Hi. destruct Hi as [Hi Hi3].
    apply andb_true_iff in Hi. destruct Hi as [Hi1 Hi2].
    apply importable_imported in Hi1, Hi2, Hi3.
    unfold_script. cbn. rewrite Hi1. cbn. rewrite Hi2. cbn. rewrite Hi3. cbn.
    destruct (exists_in fs (model_dir_path os)); cbn.
    - rewrite Hz. cbn. rewrite Hf. cbn. split; [reflexivity|].
      fold_exists. rewrite exists_in_app, exists_in_one. apply orb_true_r.
    - rewrite Hm. cbn. fold_exists. rewrite exists_in_app, Hz. cbn.
      rewrite Hne. cbn. rewrite Hf. cbn. split; [reflexivity|].
      fold_exists. rewrite !exists_in_app, exists_in_one. apply orb_true_r. }
  destruct H12 as [H1 H2]. split; [exact H1|]. split; [exact H2|].
  apply cached_zip_no_fetch. exact H2.
Qed.

Lemma run_build_commands (os : OS) (w : World) (b : BuildOptions) (fs : FS) :
  commands (actions (run_build os w b) fs)
  = [pyinstaller_args (os_at os fs) b]
  /\ filter is_download_work (actions (run_build os w b) fs) = []
  /\ fs_after (run_build os w b) fs = fs.
Proof.
  unfold actions, fs_after, run_build, build_executable.
  destruct (run_call w (pyinstaller_args (os_at os fs) b)); cbn; auto.
Qed.

(** What [main] does once the dependencies are there and the model path is
    settled without a download: one PyInstaller run with the options of the
    command line, then messages. *)
Lemma main_tail (os : OS) (w : World) (args : Args) (model : option str)
      (fs : FS) :
  let tail :=
    sbind (sret model) (fun model =>
      sbind (run_build os w (build_options args model)) (fun exe_path =>
        if truthy_opt exe_path then
          sbind (act (AInfo (lit "Build completed successfully. Executable: "
                   ++ match exe_path with Some p => p | None => [] end)))
            (fun _ =>
               if negb (arg_onedir args) && truthy_opt model
               then act (AInfo single_file_note) else pass)
        else act (AError (lit "Build failed")))) in
  commands (actions tail fs)
  = [pyinstaller_args (os_at os fs) (build_options args model)]
  /\ filter is_download_work (actions tail fs) = []
  /\ fs_after tail fs = fs.
Proof.
  cbn zeta. unfold actions, fs_after, sbind, sret, run_build, build_executable,
    act, pass.
  destruct (run_call w _); cbn -[pyinstaller_args dist_path];
    repeat match goal with
           | |- context [match truthy ?x with _ => _ end] =>
               destruct (truthy x); cbn -[pyinstaller_args dist_path]
           | |- context [match truthy_opt ?x with _ => _ end] =>
               destruct (truthy_opt x); cbn -[pyinstaller_args dist_path]
           | |- context [if ?c then _ else _] =>
               destruct c; cbn -[pyinstaller_args dist_path]
           end; auto.
Qed.

(** With [--model M] and without [--download-model], [main] requests
    nothing, makes no directory, writes no archive and extracts nothing, and
    if the dependency check returns it runs PyInstaller once, after the
    installation commands, with the model path [M] and the options of the
    command line. *)
Theorem main_uses_given_model :
  forall os w args fs m,
    arg_model args = Some m ->
    truthy m = true ->
    arg_download_model args = false ->
    filter is_download_work (actions (main os w args) fs) = []
    /\ (outcome (check_dependencies os w) fs = Returned tt ->
        commands (actions (main os w args) fs)
        = commands (actions (check_dependencies os w) fs)
          ++ [pyinstaller_args (os_at os fs) (build_options args (Some m))]).
Proof.
  intros os w args fs m Hm Ht Hd.
  pose proof (check_dependencies_plain os w fs) as Hdw.
  destruct (careful_check_dependencies os w fs) as (F & _).
  unfold main, resolve_model. rewrite Hd, Hm. cbn [truthy_opt orb negb].
  rewrite Ht. cbn [negb].
  destruct (main_tail os w args (Some m) fs) as (Tc & Td & Tf).
  cbn zeta in Tc, Td, Tf.
  destruct (outcome (check_dependencies os w) fs) as [[]|e] eqn:E.
  - match goal with
    | |- context [sbind (check_dependencies os w) ?k] =>
        destruct (sbind_returned (check_dependencies os w) k fs tt E)
          as (Ha & Hf & _)
    end.
    rewrite Ha, F, filter_app, commands_app, Hdw, Tc, Td. auto.
  - match goal with
    | |- context [sbind (check_dependencies os w) ?k] =>
        destruct (sbind_raised (check_dependencies os w) k fs e E)
          as (Ha & Hf & _)
    end.
    rewrite Ha, Hdw. repeat split. intros H. discriminate H.
Qed.

(** [download_vosk_model] starts no subprocess. *)
Lemma download_no_commands (os : OS) (w : World) (name : str) (fs : FS) :
  commands (actions (download_vosk_model os w name) fs) = [].
Proof. unfold_script. script_branches; reflexivity. Qed.

(** A download that fails does not stop the build. When [main] has to
    download the model (no [--model], or [--download-model]) and
    [download_vosk_model] returns [None], PyInstaller is still run, once,
    with the model path of the command line if there is one and with no
    model otherwise. *)
Theorem failed_download_does_not_stop_build :
  forall os w args fs,
    outcome (check_dependencies os w) fs = Returned tt ->
    arg_download_model args || negb (truthy_opt (arg_model args)) = true ->
    outcome (download_vosk_model os w default_model_name) fs
    = Returned None ->
    commands (actions (main os w args) fs)
    = commands (actions (check_dependencies os w) fs)
      ++ [pyinstaller_args
            (os_at os (fs_after (download_vosk_model os w default_model_name) fs))
            (build_options args (arg_model args))]
    /\ include_model (build_options args (arg_model args))
       = truthy_opt (arg_model args).
Proof.
  intros os w args fs Hcd Hneed Hdl. split; [| reflexivity].
  destruct (careful_check_dependencies os w fs) as (F & _).
  unfold main.
  match goal with
  | |- context [sbind (check_dependencies os w) ?k] =>
      destruct (sbind_returned (check_dependencies os w) k fs tt Hcd)
        as (Ha & _)
  end.
  rewrite Ha, F, commands_app. f_equal.
  unfold resolve_model. rewrite Hneed.
  set (dl := download_vosk_model os w default_model_name) in *.
  match goal with
  | |- context [sbind (sbind dl ?f) ?k] =>
      destruct (sbind_returned dl f fs None Hdl) as (Hb & Hf & Ho);
      cbn [truthy_opt] in Hb, Hf, Ho;
      destruct (sbind_returned (sbind dl f) k fs (arg_model args) Ho)
        as (Hc & _)
  end.
  rewrite Hc, Hb, Hf, !commands_app.
  unfold dl at 1. rewrite download_no_commands.
  destruct (main_tail os w args (arg_model args) (fs_after dl fs))
    as (Tc & _).
  cbn zeta in Tc.
  match type of Tc with
  | commands (actions (sbind (sret ?m) ?k) ?f) = _ =>
      destruct (sbind_returned (sret m) k f m eq_refl) as (Hs & _);
      rewrite Hs in Tc
  end.
  exact Tc.
Qed.

(** An icon or a model directory that is not on disk is left out without
    a word: the arguments are those of the same build with no icon, or with
    no model, given; and a model is left out as well when [include_model] is
    false. *)
Theorem missing_icon_or_model_is_left_out :
  forall os b,
    (forall i,
       icon b = Some i -> path_exists os i = false ->
       pyinstaller_args os b = pyinstaller_args os (without_icon b))
    /\ (forall m,
          model_path b = Some m -> path_exists os m = false ->
          pyinstaller_args os b = pyinstaller_args os (without_model b))
    /\ (include_model b = false ->
        pyinstaller_args os b = pyinstaller_args os (without_model b)).
Proof.
  intros os b. unfold pyinstaller_args, without_icon, without_model,
    effective_name. cbn [icon model_path include_model script_path
                         output_name one_file console].
  repeat split.
  - intros i Hi He. rewrite Hi, He, andb_false_r. reflexivity.
  - intros m Hm He. rewrite Hm, He, andb_false_r. reflexivity.
  - intros Hf. rewrite Hf. destruct (model_path b); reflexivity.
Qed.

(** *** The further properties on sample runs of the script *)

Lemma dependencies_sample :
  dependencies_installed (all_installed DownloadOk) = true
  /\ (commands (actions (check_dependencies sample_os
                           (all_installed DownloadOk)) []) = []
      /\ outcome (check_dependencies sample_os (all_installed DownloadOk)) []
         = Returned tt
      /\ log_records (actions (check_dependencies sample_os
                                 (all_installed DownloadOk)) [])
         = [ELogInfo (lit "PyInstaller is installed");
            ELogInfo (lit "Vosk is installed");
            ELogInfo (lit "PyAudio is installed")]).
Proof.
  assert (H : dependencies_installed (all_installed DownloadOk) = true)
    by reflexivity.
  split; [exact H|].
  exact (proj2 (proj2 (proj2 (proj2 (proj2
           (dependencies_installed_through_interpreter sample_os
              (all_installed DownloadOk) []))))) H).
Defined.

(** With pip out of order the first installation fails; with a [vosk] that
    cannot be loaded the check raises without having started a command. *)
Lemma failed_install_sample :
  (outcome (check_dependencies sample_os pip_broken) []
   = Raised (lit "returned non-zero exit status 1")
   /\ outcome (main sample_os pip_broken default_args) []
      = Raised (lit "returned non-zero exit status 1"))
  /\ (outcome (check_dependencies sample_os vosk_broken) []
      = Raised (lit "cannot load library 'libvosk.so'")
      /\ commands (actions (check_dependencies sample_os vosk_broken) []) = []
      /\ outcome (main sample_os vosk_broken default_args) []
         = Raised (lit "cannot load library 'libvosk.so'")).
Proof.
  assert (H : outcome (check_dependencies sample_os pip_broken) []
              = Raised (lit "returned non-zero exit status 1"))
    by (vm_compute; reflexivity).
  assert (H' : outcome (check_dependencies sample_os vosk_broken) []
               = Raised (lit "cannot load library 'libvosk.so'"))
    by (vm_compute; reflexivity).
  split; [split; [exact H|] | split; [exact H' | split]].
  - exact (proj1 (proj2 (proj2
             (failed_install_aborts sample_os pip_broken default_args []
                (lit "returned non-zero exit status 1") H)))).
  - vm_compute; reflexivity.
  - exact (proj1 (proj2 (proj2
             (failed_install_aborts sample_os vosk_broken default_args []
                (lit "cannot load library 'libvosk.so'") H')))).
Defined.

Lemma check_vosk_model_sample :
  exists_in [] (lit "/models/en") = false
  /\ filter is_model_load
       (actions (check_vosk_model (all_installed DownloadOk)
                   (lit "/models/en")) []) = [].
Proof.
  assert (H : exists_in [] (lit "/models/en") = false) by reflexivity.
  split; [exact H|].
  exact (proj1 (proj2 (proj2 (proj2 (proj2
           (check_vosk_model_verdict (all_installed DownloadOk)
              (lit "/models/en") []))))) H).
Defined.

Lemma download_cached_sample :
  (download_imports_ok offline = true
   /\ exists_in cached_fs (model_dir_path sample_os) = true
   /\ exists_in cached_fs (zip_path_of sample_os default_model_name) = true
   /\ exists_in cached_fs (extracted_path_of sample_os default_model_name)
      = true)
  /\ (filter is_download_work
        (actions (download_vosk_model sample_os offline default_model_name)
           cached_fs) = []
      /\ log_records
           (actions (download_vosk_model sample_os offline default_model_name)
              cached_fs)
         = [ELogInfo (lit "Model already downloaded at "
                        ++ zip_path_of sample_os default_model_name);
            ELogInfo (lit "Model already extracted at "
                        ++ extracted_path_of sample_os default_model_name)]
      /\ outcome (download_vosk_model sample_os offline default_model_name)
           cached_fs
         = Returned (Some (extracted_path_of sample_os default_model_name))).
Proof.
  assert (H1 : download_imports_ok offline = true) by reflexivity.
  assert (H2 : exists_in cached_fs (model_dir_path sample_os) = true)
    by (vm_compute; reflexivity).
  assert (H3 : exists_in cached_fs (zip_path_of sample_os default_model_name)
               = true) by (vm_compute; reflexivity).
  assert (H4 : exists_in cached_fs
                 (extracted_path_of sample_os default_model_name) = true)
    by (vm_compute; reflexivity).
  split; [auto|].
  exact (proj2 (proj2 (download_uses_what_is_on_disk sample_os offline
                         default_model_name cached_fs)) H1 H2 H3 H4).
Defined.

Lemma download_result_sample :
  outcome (download_vosk_model sample_os offline default_model_name) []
  = Returned None
  /\ ends_with_error
       (actions (download_vosk_model sample_os offline default_model_name) [])
     = true.
Proof.
  assert (H : outcome (download_vosk_model sample_os offline
                         default_model_name) [] = Returned None)
    by (vm_compute; reflexivity).
  split; [exact H|].
  exact (proj1 (proj2 (download_result sample_os offline default_model_name []))
           H).
Defined.

Lemma interrupted_download_sample :
  (download_imports_ok interrupted = true
   /\ makedirs interrupted (model_dir_path sample_os) = None
   /\ exists_in [] (zip_path_of sample_os default_model_name) = false
   /\ eqb (zip_path_of sample_os default_model_name)
        (model_dir_path sample_os) = false
   /\ fetch interrupted (url_of default_model_name)
      = TransferRaises (lit "Connection reset by peer"))
  /\ (outcome (download_vosk_model sample_os interrupted default_model_name)
        [] = Returned None
      /\ exists_in
           (fs_after (download_vosk_model sample_os interrupted
                        default_model_name) [])
           (zip_path_of sample_os default_model_name) = true
      /\ filter (fun a => is_http_get a || is_open_write a)
           (actions (download_vosk_model sample_os
                       (all_installed DownloadOk) default_model_name)
              (fs_after (download_vosk_model sample_os interrupted
                           default_model_name) [])) = []).
Proof.
  assert (H1 : download_imports_ok interrupted = true) by reflexivity.
  assert (H2 : makedirs interrupted (model_dir_path sample_os) = None)
    by reflexivity.
  assert (H3 : exists_in [] (zip_path_of sample_os default_model_name) = false)
    by reflexivity.
  assert (H4 : eqb (zip_path_of sample_os default_model_name)
                 (model_dir_path sample_os) = false)
    by (vm_compute; reflexivity).
  assert (H5 : fetch interrupted (url_of default_model_name)
               = TransferRaises (lit "Connection reset by peer"))
    by reflexivity.
  split; [auto|].
  exact (interrupted_download_is_not_resumed sample_os interrupted
           (all_installed DownloadOk) default_model_name []
           (lit "Connection reset by peer") H1 H2 H3 H4 H5).
Defined.

Lemma main_given_model_sample :
  (arg_model args_with_model = Some (lit "/models/en")
   /\ truthy (lit "/models/en") = true
   /\ arg_download_model args_with_model = false)
  /\ filter is_download_work
       (actions (main sample_os offline args_with_model) [lit "/models/en"])
     = [].
Proof.
  split; [repeat split; reflexivity|].
  exact (proj1 (main_uses_given_model sample_os offline args_with_model
                  [lit "/models/en"] (lit "/models/en")
                  eq_refl eq_refl eq_refl)).
Defined.

Lemma failed_download_sample :
  (outcome (check_dependencies sample_os offline) [] = Returned tt
   /\ arg_download_model default_args
      || negb (truthy_opt (arg_model default_args)) = true
   /\ outcome (download_vosk_model sample_os offline default_model_name) []
      = Returned None)
  /\ commands (actions (main sample_os offline default_args) [])
     = commands (actions (check_dependencies sample_os offline) [])
       ++ [pyinstaller_args
             (os_at sample_os
                (fs_after (download_vosk_model sample_os offline
                             default_model_name) []))
             (build_options default_args (arg_model default_args))].
Proof.
  assert (H1 : outcome (check_dependencies sample_os offline) [] = Returned tt)
    by (vm_compute; reflexivity).
  assert (H2 : arg_download_model default_args
               || negb (truthy_opt (arg_model default_args)) = true)
    by reflexivity.
  assert (H3 : outcome (download_vosk_model sample_os offline
                          default_model_name) [] = Returned None)
    by (vm_compute; reflexivity).
  split; [auto|].
  exact (proj1 (failed_download_does_not_stop_build sample_os offline
                  default_args [] H1 H2 H3)).
Defined.

Lemma missing_icon_sample :
  (icon with_missing_icon = Some (lit "app.ico")
   /\ path_exists sample_os (lit "app.ico") = false)
  /\ pyinstaller_args sample_os with_missing_icon
     = pyinstaller_args sample_os (without_icon with_missing_icon).
Proof.
  split; [split; reflexivity|].
  exact (proj1 (missing_icon_or_model_is_left_out sample_os with_missing_icon)
           (lit "app.ico") eq_refl eq_refl).
Defined.

End BuildExeSpec.
